(** * God-Mind: the task-dispatch core and the session memory bank

    A shallow embedding of

    - [src/core/consciousness/apex_orchestrator.py]: agent allocation, task
      decomposition, fan-out over the agents, consolidation of the results
      and the best-effort upload to the memory constellation;
    - [src/memory/auto_memory_bank.py]: the JSON-file session store;
    - [src/agents/agent_chain_upgrade.py]: the agent chain built on it.

    Python [float]s are IEEE-754 binary64 numbers and are modelled by Rocq's
    primitive floats, so the arithmetic of the confidence score is the
    arithmetic Python performs.  Python dictionaries used as maps are
    [gmap]s; the one dictionary whose insertion order is observed
    ([self.agents], sliced with [[:9]]) is an ordered association list.
    Reads of the wall clock, the outcome of the HTTP upload and the values
    the encoder of [json.dump] gets through are inputs of the model. *)

From Stdlib Require Import PrimFloat PrimInt63 Uint63 SpecFloat FloatOps.
From stdpp Require Import gmap strings list pretty.

Set Warnings "-register-all,-inexact-float".
Local Open Scope string_scope.

(** ** Python values *)

(** The values a [Dict[str, Any]] holds, as far as the code looks into them. *)
Inductive value :=
| VNone
| VBool (b : bool)
| VInt (z : Z)
| VFloat (f : float)
| VStr (s : string)
| VList (l : list value)
| VDict (m : gmap string value).

(** [d.get(k)]: the value under [k], or [None]. *)
Definition dict_get (d : gmap string value) (k : string) : value :=
  default VNone (d !! k).

(** [d.get(k, dflt)]. *)
Definition dict_get_default (d : gmap string value) (k : string) (dflt : value) : value :=
  default dflt (d !! k).

(** [v == s] for a string literal [s]. *)
Definition value_eq_str (v : value) (s : string) : bool :=
  match v with
  | VStr s' => String.eqb s' s
  | _ => false
  end.

(** [needle in hay] on strings: substring containment. *)
Fixpoint str_contains (needle hay : string) : bool :=
  if String.prefix needle hay then true
  else match hay with
       | EmptyString => false
       | String _ rest => str_contains needle rest
       end.

(** [f"{i:0{w}d}"] for a natural number: decimal digits, zero-padded on the
    left to width [w]. *)
Definition zero_pad (w : nat) (s : string) : string :=
  String.concat "" (replicate (w - String.length s) "0") ++ s.

Definition format_0d (w : nat) (i : nat) : string := zero_pad w (pretty i).

(** [int(x)] on a float: truncation towards zero; [None] where Python raises
    (NaN, infinities). *)
Definition int_of_float (x : float) : option Z :=
  match Prim2SF x with
  | S754_zero _ => Some 0%Z
  | S754_finite s m e =>
      let z := Z.shiftl (Z.pos m) e in
      Some (if s then (- z)%Z else z)
  | S754_infinity _ => None
  | S754_nan => None
  end.

Definition is_nan (x : float) : bool :=
  match Prim2SF x with
  | S754_nan => true
  | _ => false
  end.

(** [float(n)] for a list length. *)
Definition float_of_nat (n : nat) : float :=
  PrimFloat.of_uint63 (Uint63.of_Z (Z.of_nat n)).

(** ** Insertion-ordered dictionaries

    [self.agents] is iterated and sliced, so its insertion order is kept. *)
Module OrderedDict.
Section WithValue.
Context {V : Type}.

Fixpoint get (d : list (string * V)) (k : string) : option V :=
  match d with
  | [] => None
  | (k', v) :: rest => if String.eqb k' k then Some v else get rest k
  end.

(** [d[k] = v]: an existing key keeps its position, a new key goes last. *)
Fixpoint set (d : list (string * V)) (k : string) (v : V) : list (string * V) :=
  match d with
  | [] => [(k, v)]
  | (k', v') :: rest =>
      if String.eqb k' k then (k, v) :: rest else (k', v') :: set rest k v
  end.

(** In-place update of the object stored under [k], if any. *)
Fixpoint alter (f : V -> V) (d : list (string * V)) (k : string) : list (string * V) :=
  match d with
  | [] => []
  | (k', v') :: rest =>
      if String.eqb k' k then (k', f v') :: rest else (k', v') :: alter f rest k
  end.

Definition keys (d : list (string * V)) : list string := map fst d.
Definition mem (d : list (string * V)) (k : string) : bool :=
  match get d k with Some _ => true | None => false end.
End WithValue.
End OrderedDict.

(** ** The orchestrator's data *)

Inductive AgentTypeEnum := TRINITY | SPECIALIST | ORCHESTRATOR | MEMORY | PROCESSOR.

Record Agent := mkAgent {
  agent_id : string;
  agent_type : AgentTypeEnum;
  capabilities : list string;
  status : string;
  processing_load : float;
  last_activity : option string;
  mcp_connections : list string
}.

(** [Agent(agent_id=..., agent_type=..., capabilities=...)] with the
    dataclass defaults. *)
Definition new_Agent (aid : string) (ty : AgentTypeEnum) (caps : list string) : Agent :=
  mkAgent aid ty caps "inactive" 0%float None [].

(** Exceptions: the ones the orchestrator's own code can raise, the two a
    worker executor may fail with, and a catch-all for the HTTP client. *)
Inductive exn :=
| KeyError (k : string)
| IndexError
| ValueError
| OverflowError
| WorkerUnavailableError
| WorkerTimeoutError
| ClientError (msg : string).

(** The text of a worker's [result] entry: the stub's f-string keeps the
    interpolated value; any other executor supplies its own text. *)
Inductive result_text :=
| Processed (action : value)
| Text (s : string).

(** The dictionary an executor returns.  [cognitive_load] is optional because
    consolidation reads it with [.get("cognitive_load", 0.0)]. *)
Record AgentResult := mkAgentResult {
  r_agent_id : string;
  r_status : string;
  r_result : result_text;
  r_timestamp : float;
  r_cognitive_load : option float
}.

Record AgentTask := mkAgentTask {
  at_agent_id : string;
  at_subtask : gmap string value;
  at_context : value
}.

(** What [_consolidate_results] returns. *)
Record Outcome := mkOutcome {
  task_id : value;
  o_status : string;
  agent_count : nat;
  processing_time : float;
  cognitive_synthesis : list AgentResult;
  final_output : gmap string value;
  confidence_score : float
}.

(** The document [_store_in_memory] uploads. *)
Record MemoryContent := mkMemoryContent {
  mc_task_id : value;
  mc_result_summary : gmap string value;
  mc_confidence : float;
  mc_agent_count : nat;
  mc_processing_time : float;
  mc_timestamp : float
}.

(** Log records, one constructor per logging call of the dispatch path. *)
Inductive LogRecord :=
| InfoProcessing (tid : value)
| ErrorAgentFailed (aid : string) (e : exn)
| WarningApiKeyMissing
| InfoMemoryStored (tid : value)
| ErrorMemoryFailed (http_status : Z)
| ErrorMemoryError (e : exn).

(** The mutable state of an [ApexConsciousness] that dispatch touches, with
    the number of clock reads made so far and the log written so far. *)
Record Consciousness := mkConsciousness {
  agents : list (string * Agent);
  api_endpoint : string;
  api_key : option string;
  clock_reads : nat;
  log : list LogRecord
}.

(** The world outside: the wall clock (the reading of the [n]-th call of
    [time.time()]) and the answer of the memory service to a POST. *)
Inductive HttpOutcome :=
| Responded (http_status : Z)
| Failed (e : exn).

Record Env := mkEnv {
  time_time : nat -> float;
  post_document : string -> string -> MemoryContent -> HttpOutcome
}.

(** ** A state-and-exception monad for the methods of [ApexConsciousness] *)

Definition M (A : Type) : Type := Consciousness -> (exn + A) * Consciousness.

Definition ret {A} (a : A) : M A := fun s => (inr a, s).

Definition raise {A} (e : exn) : M A := fun s => (inl e, s).

Definition bind {A B} (m : M A) (k : A -> M B) : M B :=
  fun s =>
    match m s with
    | (inl e, s') => (inl e, s')
    | (inr a, s') => k a s'
    end.

Notation "'let*' x := m 'in' k" := (bind m (fun x => k))
  (at level 10, x name, m at level 100, k at level 200).
Notation "m ;; k" := (bind m (fun _ => k))
  (at level 100, k at level 200, right associativity).

(** Run [m] and hand back what it returned or raised, as a value: what
    [asyncio.gather(..., return_exceptions=True)] does for each awaitable and
    what [try: ... except Exception as e:] does for its body. *)
Definition attempt {A} (m : M A) : M (exn + A) :=
  fun s => let '(r, s') := m s in (inr r, s').

Definition get_self : M Consciousness := fun s => (inr s, s).

Definition set_agents (ags : list (string * Agent)) (s : Consciousness) : Consciousness :=
  mkConsciousness ags (api_endpoint s) (api_key s) (clock_reads s) (log s).

Definition set_clock_reads (n : nat) (s : Consciousness) : Consciousness :=
  mkConsciousness (agents s) (api_endpoint s) (api_key s) n (log s).

Definition set_log (l : list LogRecord) (s : Consciousness) : Consciousness :=
  mkConsciousness (agents s) (api_endpoint s) (api_key s) (clock_reads s) l.

Definition modify (f : Consciousness -> Consciousness) : M unit :=
  fun s => (inr tt, f s).

(** [logger.info / warning / error]. *)
Definition logger (r : LogRecord) : M unit :=
  modify (fun s => set_log (log s ++ [r]) s).

(** ** Deployment of the swarm *)

Definition specializations : list string :=
  [ "file_categorization"; "document_analysis"; "code_review";
    "data_extraction"; "pattern_recognition"; "content_generation";
    "web_scraping"; "api_integration"; "memory_management";
    "structure_optimization"; "metadata_generation"; "format_conversion" ].

Definition trinity_team (i : nat) : list Agent :=
  let team_id := "trinity_" ++ format_0d 2 i in
  map (fun role =>
         new_Agent (team_id ++ "_" ++ role) TRINITY
           ["data_processing"; "analysis"; "content_generation"])
      ["ingest"; "analyze"; "publish"].

Definition specialist (i : nat) : Agent :=
  let spec := nth (i mod length specializations) specializations "" in
  new_Agent ("specialist_" ++ format_0d 3 i ++ "_" ++ spec) SPECIALIST
    [spec; "collaboration"; "optimization"].

(** [_deploy_agent_swarm]: ten trinity teams, then 170 specialists, each
    stored under its id. *)
Definition _deploy_agent_swarm (ags : list (string * Agent)) : list (string * Agent) :=
  fold_left (fun d a => OrderedDict.set d (agent_id a) a)
    (concat (map trinity_team (seq 0 10)) ++ map specialist (seq 0 170))
    ags.

(** The state once [__init__] has run: the deployed swarm, the endpoint of
    the memory service and the key found in the environment, if any. *)
Definition initial_consciousness (key : option string) : Consciousness :=
  mkConsciousness (_deploy_agent_swarm []) "https://api.supermemory.ai/v3" key 0 [].

(** ** Allocation and decomposition *)

Definition _get_agents_by_capability (ags : list (string * Agent)) (capability : string)
  : list string :=
  map fst (filter (fun p => existsb (String.eqb capability) (capabilities (snd p)) = true) ags).

Definition _allocate_agents_for_task (ags : list (string * Agent)) (task_type : value)
  : list string :=
  if value_eq_str task_type "file_organization" then
    _get_agents_by_capability ags "file_categorization"
  else if value_eq_str task_type "document_processing" then
    _get_agents_by_capability ags "document_analysis"
  else if value_eq_str task_type "code_analysis" then
    _get_agents_by_capability ags "code_review"
  else
    take 9 (filter (fun aid => str_contains "trinity" aid = true) (OrderedDict.keys ags)).

Definition general_processing (task : gmap string value) : gmap string value :=
  {[ "action" := VStr "general_processing"; "data" := VDict task ]}.

Definition _decompose_task_for_agent (task : gmap string value) (aid : string)
  : M (gmap string value) :=
  let* self := get_self in
  match OrderedDict.get (agents self) aid with
  | None => raise (KeyError aid)
  | Some agent =>
      match agent_type agent with
      | TRINITY =>
          if str_contains "ingest" aid then
            ret {[ "action" := VStr "data_ingestion"; "target" := dict_get task "input" ]}
          else if str_contains "analyze" aid then
            ret {[ "action" := VStr "analysis"; "focus" := dict_get task "analysis_type" ]}
          else if str_contains "publish" aid then
            ret {[ "action" := VStr "result_synthesis";
                   "format" := dict_get task "output_format" ]}
          else ret (general_processing task)
      | SPECIALIST =>
          match capabilities agent with
          | [] => raise IndexError
          | c :: _ =>
              ret {[ "action" := VStr "specialized_processing";
                     "specialty" := VStr c;
                     "data" := dict_get task "data" ]}
          end
      | _ => ret (general_processing task)
      end
  end.

(** ** Execution, consolidation, storage *)

Section Dispatch.
Variable env : Env.

(** [time.time()]: the next reading of the wall clock. *)
Definition now : M float :=
  fun s => (inr (time_time env (clock_reads s)), set_clock_reads (S (clock_reads s)) s).

(** [int(time.time())]. *)
Definition now_int : M Z :=
  let* t := now in
  match int_of_float t with
  | Some z => ret z
  | None => raise (if is_nan t then ValueError else OverflowError)
  end.

Definition mark_processing (stamp : string) (a : Agent) : Agent :=
  mkAgent (agent_id a) (agent_type a) (capabilities a) "processing"
    (processing_load a) (Some stamp) (mcp_connections a).

(** The executor of the source: after the simulated delay it marks the
    agent as processing and returns a canned result. *)
Definition _execute_agent_task (agent_task : AgentTask) : M AgentResult :=
  let aid := at_agent_id agent_task in
  let subtask := at_subtask agent_task in
  let* self := get_self in
  (if OrderedDict.mem (agents self) aid then
     let* z := now_int in
     modify (fun s => set_agents (OrderedDict.alter (mark_processing (pretty z)) (agents s) aid) s)
   else ret tt) ;;
  let* t := now in
  ret (mkAgentResult aid "completed"
         (Processed (dict_get_default subtask "action" (VStr "unknown")))
         t (Some 0.85%float)).

(** The executor in use: [self._execute_agent_task], which a deployment
    replaces by the actual agent logic and which may then raise. *)
Variable execute : AgentTask -> M AgentResult.

(** The loop that builds one agent task per agent id.  An exception of the
    decomposition leaves the loop, before anything is executed. *)
Fixpoint build_agent_tasks (agent_ids : list string) (task : gmap string value)
  : M (list AgentTask) :=
  match agent_ids with
  | [] => ret []
  | aid :: rest =>
      let* subtask := _decompose_task_for_agent task aid in
      let agent_task :=
        mkAgentTask aid subtask (dict_get_default task "context" (VDict ∅)) in
      let* tasks := build_agent_tasks rest task in
      ret (agent_task :: tasks)
  end.

(** [await asyncio.gather] with [return_exceptions=True]: every
    awaitable runs to its end, whatever the others do; the results come
    back in the order of the arguments, exceptions as values. *)
Fixpoint gather {A} (tasks : list (M A)) : M (list (exn + A)) :=
  match tasks with
  | [] => ret []
  | t :: rest =>
      let* r := attempt t in
      let* rs := gather rest in
      ret (r :: rs)
  end.

(** The loop over [enumerate(results)], from index [i] on: exceptions are
    logged with [agent_ids[i]], the rest is kept. *)
Fixpoint filter_valid (agent_ids : list string) (i : nat)
    (results : list (exn + AgentResult)) : M (list AgentResult) :=
  match results with
  | [] => ret []
  | inl e :: rest =>
      logger (ErrorAgentFailed (nth i agent_ids "") e) ;;
      filter_valid agent_ids (S i) rest
  | inr result :: rest =>
      let* valid_results := filter_valid agent_ids (S i) rest in
      ret (result :: valid_results)
  end.

Definition _coordinate_agent_execution (agent_ids : list string) (task : gmap string value)
  : M (list AgentResult) :=
  let* tasks := build_agent_tasks agent_ids task in
  let* results := gather (map execute tasks) in
  filter_valid agent_ids 0 results.

Definition _generate_final_output (results : list AgentResult) : gmap string value :=
  {[ "synthesis_complete" := VBool true;
     "agent_consensus" := VInt (Z.of_nat (length results));
     "output_quality" := VStr "apex";
     "recommendations" := VStr "Cognitive task completed successfully" ]}.

(** The accumulation [total_confidence += result.get("cognitive_load", 0.0)]. *)
Definition total_confidence (results : list AgentResult) : float :=
  fold_left (fun acc r => PrimFloat.add acc (default 0%float (r_cognitive_load r)))
    results 0%float.

Definition _consolidate_results (results : list AgentResult) (tid : value) : M Outcome :=
  let* t := now in
  let confidence :=
    match results with
    | [] => 0%float
    | _ :: _ => PrimFloat.div (total_confidence results) (float_of_nat (length results))
    end in
  ret (mkOutcome tid "completed" (length results) t results
         (_generate_final_output results) confidence).

Definition _store_in_memory (tid : value) (result : Outcome) : M unit :=
  let* self := get_self in
  match api_key self with
  | None | Some "" => logger WarningApiKeyMissing
  | Some key =>
      let* t := now in
      let memory_content :=
        mkMemoryContent tid (final_output result) (confidence_score result)
          (agent_count result) (processing_time result) t in
      match post_document env (api_endpoint self ++ "/documents") key memory_content with
      | Responded 200 => logger (InfoMemoryStored tid)
      | Responded code => logger (ErrorMemoryFailed code)
      | Failed e => logger (ErrorMemoryError e)
      end
  end.

Definition process_cognitive_task (task : gmap string value) : M Outcome :=
  let* z := now_int in
  let tid := dict_get_default task "id" (VStr ("task_" ++ pretty z)) in
  let task_type := dict_get_default task "type" (VStr "general") in
  logger (InfoProcessing tid) ;;
  let* self := get_self in
  let assigned_agents := _allocate_agents_for_task (agents self) task_type in
  let* results := _coordinate_agent_execution assigned_agents task in
  let* final_result := _consolidate_results results tid in
  _store_in_memory tid final_result ;;
  ret final_result.
End Dispatch.

(** The orchestrator as the source has it: the built-in executor in place. *)
Definition builtin_process_cognitive_task (env : Env) (task : gmap string value) : M Outcome :=
  process_cognitive_task env (_execute_agent_task env) task.

(** The results that [gather] handed back as values, split by kind. *)
Definition returned {A} (results : list (exn + A)) : list A :=
  omap (fun r => match r with inr a => Some a | inl _ => None end) results.

Definition raised {A} (results : list (exn + A)) : list exn :=
  omap (fun r => match r with inl e => Some e | inr _ => None end) results.

(** The mean as the specification words it: the sum of the scores over their
    number, [0] for no scores. *)
Definition arithmetic_mean (scores : list float) : float :=
  match scores with
  | [] => 0%float
  | _ :: _ => PrimFloat.div (fold_left PrimFloat.add scores 0%float)
                (float_of_nat (length scores))
  end.

(** The quality score consolidation reads off a result. *)
Definition quality_of (r : AgentResult) : float := default 0%float (r_cognitive_load r).

(** An explicit empty or failure marker, as the specification asks of the
    final output when nothing succeeded: the empty dictionary, or one that
    does not report a completed synthesis. *)
Definition empty_or_failure_marker (out : gmap string value) : Prop :=
  out = ∅ \/ out !! "synthesis_complete" <> Some (VBool true).

(** The agent ids for which [_decompose_task_for_agent] returns: the agent
    is in the pool and, if a specialist, has a first capability. *)
Definition decomposable (ags : list (string * Agent)) (aid : string) : bool :=
  match OrderedDict.get ags aid with
  | None => false
  | Some agent =>
      match agent_type agent, capabilities agent with
      | SPECIALIST, [] => false
      | _, _ => true
      end
  end.

(** The state in which the fan-out of [process_cognitive_task] starts: one
    clock read and one log record after the call. *)
Definition started (task : gmap string value) (z : Z) (s : Consciousness) : Consciousness :=
  set_log (log s ++ [InfoProcessing (dict_get_default task "id" (VStr ("task_" ++ pretty z)))])
    (set_clock_reads (S (clock_reads s)) s).

(** The state in which the fan-out of an entry point starts: two clock
    reads (one by the entry point for the task id, one by
    [process_cognitive_task]) and one log record after the call. *)
Definition entered (tid : string) (s : Consciousness) : Consciousness :=
  set_log (log s ++ [InfoProcessing (VStr tid)]) (set_clock_reads (S (S (clock_reads s))) s).

(** The action a decomposition chose, if it returned. *)
Definition subtask_action (r : exn + gmap string value) : option value :=
  match r with
  | inr subtask => subtask !! "action"
  | inl _ => None
  end.

(** The log records the filtering loop writes, one per exception. *)
Fixpoint failure_records (agent_ids : list string) (i : nat) (results : list (exn + AgentResult))
  : list LogRecord :=
  match results with
  | [] => []
  | inl e :: rest => ErrorAgentFailed (nth i agent_ids "") e :: failure_records agent_ids (S i) rest
  | inr _ :: rest => failure_records agent_ids (S i) rest
  end.

(** ** The session memory bank ([auto_memory_bank.py])

    The module touches one directory and one file in it.  The file is
    modelled by what [json.load] makes of it: a dictionary, another JSON
    value, or an exception.  [json.dump] writes its output piece by piece
    into the file that [open("w")] has just emptied, so a value its encoder
    cannot get through (an integer with more digits than the interpreter
    converts to text, nesting beyond the recursion limit) leaves the file cut
    off after the opening brace of the dictionary: text that is not JSON.
    Which values the encoder gets through depends on the interpreter and is
    an input of the model; on those it gets through, [json.dump] followed by
    [json.load] gives back the value. *)
Module AutoMemoryBank.

(** The stores on which nothing goes wrong: there is no memory file, or it
    holds a JSON object. *)
Inductive FileSystem :=
| NoDirectory
| EmptyDirectory
| MemoryFile (mem : gmap string value).

(** [MEMORY_FILE.exists()] followed by [json.load], or [{}]. *)
Definition read_memory (fs : FileSystem) : gmap string value :=
  match fs with
  | MemoryFile mem => mem
  | NoDirectory | EmptyDirectory => ∅
  end.

Definition load_all_session_memory (fs : FileSystem) : gmap string value :=
  match fs with
  | MemoryFile mem => mem
  | NoDirectory | EmptyDirectory => ∅
  end.

(** Every state of the disk: one of the stores above, a memory file that
    holds a JSON value of another kind, or a memory file that is not JSON.
    What a file that is not JSON holds is left out: the module only ever
    hands it to [json.load], and never writes to it. *)
Inductive Disk :=
| Store (fs : FileSystem)
| OtherJson (v : value)
| NotJson.

(** The exceptions of the module: [json.load] on text that is not JSON, the
    item assignment [mem[session_id] = chat_data] on a loaded value that is
    not a dictionary, and whatever the encoder of [json.dump] raises
    ([ValueError], [RecursionError]). *)
Inductive error :=
| JSONDecodeError
| TypeError
| EncoderError.

(** [MEMORY_FILE.parent.mkdir(parents=True, exist_ok=True)]. *)
Definition mkdir (d : Disk) : Disk :=
  match d with
  | Store NoDirectory => Store EmptyDirectory
  | _ => d
  end.

(** [MEMORY_FILE.exists()]. *)
Definition file_exists (d : Disk) : bool :=
  match d with
  | Store NoDirectory | Store EmptyDirectory => false
  | Store (MemoryFile _) | OtherJson _ | NotJson => true
  end.

(** [json.load(f)] on the memory file. *)
Definition json_load (d : Disk) : error + value :=
  match d with
  | Store fs => inr (VDict (read_memory fs))
  | OtherJson v => inr v
  | NotJson => inl JSONDecodeError
  end.

(** [load_all_session_memory] on any state of the disk; on a store it
    returns the dictionary [load_all_session_memory] above gives. *)
Definition load_all_session_memory_from (d : Disk) : error + value :=
  if file_exists d then json_load d else inr (VDict ∅).

Section Encoder.
(** Whether the encoder of [json.dump] gets through a value. *)
Variable encodable : value -> bool.

(** [with MEMORY_FILE.open("w") as f: json.dump(mem, f)]: the file is
    emptied, then the entries are written one after the other. *)
Definition json_dump (mem : gmap string value) : (error + unit) * Disk :=
  if bool_decide (map_Forall (fun _ v => encodable v = true) mem)
  then (inr tt, Store (MemoryFile mem))
  else (inl EncoderError, NotJson).

Definition save_chat_memory (session_id : string) (chat_data : value) (d : Disk)
  : (error + unit) * Disk :=
  let d := mkdir d in
  match (if file_exists d then json_load d else inr (VDict ∅)) with
  | inl e => (inl e, d)
  | inr (VDict mem) => json_dump (<[session_id := chat_data]> mem)
  | inr _ => (inl TypeError, d)
  end.
End Encoder.

(** CPython's default limit on the conversion of integers to text,
    [sys.get_int_max_str_digits()]. *)
Definition int_max_str_digits : Z := 4300.

(** The encoder of an interpreter with that limit: it gets through a value
    unless an integer in it has more than [int_max_str_digits] digits. *)
Fixpoint within_int_max_str_digits (v : value) : bool :=
  match v with
  | VInt n => (Z.abs n <? 10 ^ int_max_str_digits)%Z
  | VList l => forallb within_int_max_str_digits l
  | VDict m => map_fold (fun _ v b => within_int_max_str_digits v && b) true m
  | VNone | VBool _ | VFloat _ | VStr _ => true
  end.

End AutoMemoryBank.

(** ** In-flight executor calls under [asyncio.gather]

    An instrumented executor reports when a call is entered and when it
    returns.  A coroutine is the sequence of its reports and suspension
    points; the event loop runs every ready task until it suspends, in the
    order the tasks were created, and equal delays expire in the order in
    which they were requested. *)
Module EventLoop.

Inductive event :=
| Enter (aid : string)
| Exit (aid : string).

Inductive step :=
| Emit (e : event)
| Await.

(** [_execute_agent_task]: entered, suspended at
    [await asyncio.sleep(0.1)], resumed for the rest of its body. *)
Definition execute_agent_task_steps (aid : string) : list step :=
  [Emit (Enter aid); Await; Emit (Exit aid)].

(** Run one task up to its next suspension point or its end. *)
Fixpoint run_to_await (c : list step) : list event * option (list step) :=
  match c with
  | [] => ([], None)
  | Emit e :: c' => let '(es, k) := run_to_await c' in (e :: es, k)
  | Await :: c' => ([], Some c')
  end.

(** One iteration of the loop over the ready queue. *)
Fixpoint run_ready (ready : list (list step)) : list event * list (list step) :=
  match ready with
  | [] => ([], [])
  | c :: rest =>
      let '(es, k) := run_to_await c in
      let '(es', suspended) := run_ready rest in
      ((es ++ es')%list, match k with Some c' => c' :: suspended | None => suspended end)
  end.

Fixpoint run_loop (fuel : nat) (ready : list (list step)) : list event :=
  match fuel, ready with
  | _, [] => []
  | 0, _ => []
  | S fuel', _ => let '(es, next) := run_ready ready in (es ++ run_loop fuel' next)%list
  end.

(** A task is run once more than it suspends. *)
Definition iterations (tasks : list (list step)) : nat :=
  S (list_sum (map (@length step) tasks)).

(** The reports seen while [asyncio.gather] runs the coroutines. *)
Definition gather_trace (tasks : list (list step)) : list event :=
  run_loop (iterations tasks) tasks.

(** The fan-out of [_coordinate_agent_execution]: one call per agent id,
    all handed to one [gather]. *)
Definition coordinate_trace (agent_ids : list string) : list event :=
  gather_trace (map execute_agent_task_steps agent_ids).

(** The largest number of calls entered and not yet returned, starting
    from [cur] calls in flight. *)
Fixpoint max_in_flight_from (cur : nat) (trace : list event) : nat :=
  match trace with
  | [] => cur
  | Enter _ :: trace' => Nat.max cur (max_in_flight_from (S cur) trace')
  | Exit _ :: trace' => Nat.max cur (max_in_flight_from (Nat.pred cur) trace')
  end.

Definition max_in_flight (trace : list event) : nat := max_in_flight_from 0 trace.

End EventLoop.

(** ** Convenience entry points *)

Inductive CognitiveLevelEnum := BASIC | ENHANCED | QUANTUM | APEX | TRANSCENDENT.

(** [level.value]. *)
Definition cognitive_level_value (level : CognitiveLevelEnum) : string :=
  match level with
  | BASIC => "basic"
  | ENHANCED => "enhanced"
  | QUANTUM => "quantum"
  | APEX => "apex"
  | TRANSCENDENT => "transcendent"
  end.

(** The task [organize_files] builds. *)
Definition file_organization_task (z : Z) (level : CognitiveLevelEnum)
    (directory mode : string) : gmap string value :=
  {[ "id" := VStr ("file_org_" ++ pretty z);
     "type" := VStr "file_organization";
     "input" := VStr directory;
     "mode" := VStr mode;
     "cognitive_level" := VStr (cognitive_level_value level) ]}.

Definition organize_files (env : Env) (execute : AgentTask -> M AgentResult)
    (level : CognitiveLevelEnum) (directory mode : string) : M Outcome :=
  let* z := now_int env in
  process_cognitive_task env execute (file_organization_task z level directory mode).

(** The task [generate_document] builds. *)
Definition document_task (z : Z) (template : string) (data : gmap string value)
    (format : string) : gmap string value :=
  {[ "id" := VStr ("doc_gen_" ++ pretty z);
     "type" := VStr "document_processing";
     "template" := VStr template;
     "data" := VDict data;
     "output_format" := VStr format ]}.

Definition generate_document (env : Env) (execute : AgentTask -> M AgentResult)
    (template : string) (data : gmap string value) (format : string) : M Outcome :=
  let* z := now_int env in
  process_cognitive_task env execute (document_task z template data format).

(** ** MCP servers *)

Record MCPServer := mkMCPServer {
  mcp_name : string;
  mcp_command : string;
  mcp_args : list string;
  mcp_env_vars : list (string * string);
  mcp_status : string;
  mcp_capabilities : list string;
  mcp_connection_count : Z
}.

Definition set_mcp_status (st : string) (server : MCPServer) : MCPServer :=
  mkMCPServer (mcp_name server) (mcp_command server) (mcp_args server) (mcp_env_vars server)
    st (mcp_capabilities server) (mcp_connection_count server).

(** [s.endswith(suffix)]. *)
Definition str_endswith (suffix s : string) : bool :=
  let n := String.length s in
  let m := String.length suffix in
  Nat.leb m n && String.eqb (String.substring (n - m) m s) suffix.

(** The slice [value[2:-1]]. *)
Definition slice_2_minus_1 (value : string) : string :=
  String.substring 2 (String.length value - 3) value.

(** One value of a server's environment: a reference [${NAME}] is replaced
    by what the process environment holds under [NAME], or by the empty
    string; anything else is taken as it is. *)
Definition resolve_env_value (environ : gmap string string) (value : string) : string :=
  if String.prefix "${" value && str_endswith "}" value then
    default "" (environ !! slice_2_minus_1 value)
  else value.

(** The environment [_start_mcp_server] hands to the server process: a copy
    of the process environment with the server's variables assigned in
    turn. *)
Definition server_environment (environ : gmap string string) (server : MCPServer)
  : gmap string string :=
  fold_left (fun env kv => <[fst kv := resolve_env_value environ (snd kv)]> env)
    (mcp_env_vars server) environ.

(** Log records of the server start-up. *)
Inductive McpLogRecord :=
| InfoInitializingServers
| InfoServerStarted (name : string)
| InfoServerInitialized (name : string)
| ErrorServerFailed (name : string) (e : exn).

(** [subprocess.Popen(cmd, env=env, ...)]: the process starts, or the call
    raises. *)
Definition Popen : Type := list string -> gmap string string -> option exn.

Definition _start_mcp_server (environ : gmap string string) (popen : Popen)
    (server : MCPServer) : exn + (MCPServer * list McpLogRecord) :=
  let env := server_environment environ server in
  let cmd := mcp_command server :: mcp_args server in
  match popen cmd env with
  | Some e => inl e
  | None => inr (set_mcp_status "active" server, [InfoServerStarted (mcp_name server)])
  end.

(** The loop of [_initialize_mcp_servers] over the items of
    [self.mcp_servers]. *)
Fixpoint initialize_each (environ : gmap string string) (popen : Popen)
    (servers : list (string * MCPServer)) : list (string * MCPServer) * list McpLogRecord :=
  match servers with
  | [] => ([], [])
  | (name, server) :: rest =>
      let '(server', records) :=
        match _start_mcp_server environ popen server with
        | inr (started_server, started_log) =>
            (started_server, (started_log ++ [InfoServerInitialized name])%list)
        | inl e => (server, [ErrorServerFailed name e])
        end in
      let '(rest', records') := initialize_each environ popen rest in
      ((name, server') :: rest', (records ++ records')%list)
  end.

Definition _initialize_mcp_servers (environ : gmap string string) (popen : Popen)
    (servers : list (string * MCPServer)) : list (string * MCPServer) * list McpLogRecord :=
  let '(servers', records) := initialize_each environ popen servers in
  (servers', InfoInitializingServers :: records).

(** ** System status *)

Record SystemStatus := mkSystemStatus {
  st_consciousness_state : string;
  st_cognitive_level : string;
  st_agents_total : nat;
  st_agents_active : nat;
  st_trinity_teams : nat;
  st_mcp_total : nat;
  st_mcp_active : nat;
  st_mcp_capabilities : gset string;
  st_memory_status : string;
  st_memory_endpoint : string;
  st_operations_per_second : Z;
  st_avg_response_time_ms : Z;
  st_files_per_minute : Z
}.

Definition is_trinity (a : Agent) : bool :=
  match agent_type a with
  | TRINITY => true
  | _ => false
  end.

(** The truth value of [self.memory_constellation.get("api_key")]. *)
Definition api_key_set (s : Consciousness) : bool :=
  match api_key s with
  | None | Some "" => false
  | Some _ => true
  end.

(** [get_system_status].  The capabilities are listed from a set, in an
    order Python does not fix; the set itself is kept. *)
Definition get_system_status (consciousness_state : string) (level : CognitiveLevelEnum)
    (mcp_servers : list (string * MCPServer)) (s : Consciousness) : SystemStatus :=
  let active_agents :=
    length (filter (fun p => String.eqb (status (snd p)) "active" = true) (agents s)) in
  let active_servers :=
    length (filter (fun p => String.eqb (mcp_status (snd p)) "active" = true) mcp_servers) in
  mkSystemStatus consciousness_state (cognitive_level_value level)
    (length (agents s)) active_agents
    (Nat.div (length (filter (fun p => is_trinity (snd p) = true) (agents s))) 3)
    (length mcp_servers) active_servers
    (list_to_set (concat (map (fun p => mcp_capabilities (snd p)) mcp_servers)))
    (if api_key_set s then "active" else "inactive")
    (api_endpoint s)
    9000%Z 100%Z 15000%Z.

(** ** The agent chain ([agent_chain_upgrade.py]) *)
Module AgentChain.

Record ApexAgentChain := mkChain {
  memory : gmap string value;
  routines : list string
}.

(** What [print] writes, one record per call. *)
Inductive Printed :=
| LoadedMemory (mem : gmap string value)
| Running (routine : string) (context : value).

(** [ApexAgentChain()]: the session memory is loaded once, here. *)
Definition init (fs : AutoMemoryBank.FileSystem) : ApexAgentChain :=
  mkChain (AutoMemoryBank.load_all_session_memory fs) [].

Definition discover_routines (chain : ApexAgentChain) : ApexAgentChain :=
  mkChain (memory chain)
    (routines chain ++ ["default_greet"; "context_refine"; "memory_sync"; "automation_invoke"])%list.

Definition run_chain (chain : ApexAgentChain) (context : value)
  : ApexAgentChain * list Printed :=
  let chain' := discover_routines chain in
  (chain', LoadedMemory (memory chain) :: map (fun r => Running r context) (routines chain')).

(** [n] calls of [run_chain] in a row, with what each printed. *)
Fixpoint run_chain_times (n : nat) (chain : ApexAgentChain) (context : value)
  : ApexAgentChain * list (list Printed) :=
  match n with
  | 0 => (chain, [])
  | S n' =>
      let '(chain', printed) := run_chain chain context in
      let '(chain'', rest) := run_chain_times n' chain' context in
      (chain'', printed :: rest)
  end.

End AgentChain.

(** ** Notions used to state the properties of the pool *)

(** A pool is a dictionary: no key occurs twice. *)
Definition unique_keys (ags : list (string * Agent)) : Prop :=
  NoDup (OrderedDict.keys ags).

(** The wall clock never reads NaN or an infinity. *)
Definition clock_finite (env : Env) : Prop :=
  forall n, exists z, int_of_float (time_time env n) = Some z.

(** What the built-in executor may do to one entry of the pool: nothing, or
    mark the agent as processing. *)
Definition touched (p q : string * Agent) : Prop :=
  fst q = fst p
  /\ (snd q = snd p \/ exists stamp, snd q = mark_processing stamp (snd p)).

(** ** Concrete runs used below *)
Module Scenario.

(** A clock stuck at one instant, and a memory service that stores or that
    cannot be reached. *)
Definition clock (n : nat) : float := 1730000000.5%float.

Definition env_stored : Env := mkEnv clock (fun _ _ _ => Responded 200).
Definition env_unreachable : Env :=
  mkEnv clock (fun _ _ _ => Failed (ClientError "connection refused")).

(** A clock that advances by one second at every read. *)
Definition ticking_env : Env :=
  mkEnv (fun n => PrimFloat.add 1730000000%float (float_of_nat n))
        (fun _ _ _ => Responded 200).

(** The task [{"id": "t1", "type": "general"}]. *)
Definition t1 : gmap string value := {[ "id" := VStr "t1"; "type" := VStr "general" ]}.

Definition trinity_worker (aid : string) : string * Agent :=
  (aid, new_Agent aid TRINITY ["data_processing"; "analysis"; "content_generation"]).

(** A pool of three workers, and the same pool without the second one. *)
Definition three_workers : Consciousness :=
  mkConsciousness
    [trinity_worker "trinity_w1"; trinity_worker "trinity_w2"; trinity_worker "trinity_w3"]
    "https://api.supermemory.ai/v3" None 0 [].

Definition two_workers : Consciousness :=
  mkConsciousness
    [trinity_worker "trinity_w1"; trinity_worker "trinity_w3"]
    "https://api.supermemory.ai/v3" None 0 [].

(** A pool in which nothing matches a general task. *)
Definition no_trinity : Consciousness :=
  mkConsciousness [("memory_00", new_Agent "memory_00" MEMORY ["persistent_memory"])]
    "https://api.supermemory.ai/v3" None 0 [].

(** An executor whose call for the second worker times out; the others
    succeed with quality 1.0. *)
Definition w2_times_out (agent_task : AgentTask) : M AgentResult :=
  if String.eqb (at_agent_id agent_task) "trinity_w2" then raise WorkerTimeoutError
  else ret (mkAgentResult (at_agent_id agent_task) "completed" (Text "done")
              1730000000.5%float (Some 1%float)).

(** Executors that always fail. *)
Definition always_times_out (agent_task : AgentTask) : M AgentResult :=
  raise WorkerTimeoutError.

Definition always_unavailable (agent_task : AgentTask) : M AgentResult :=
  raise WorkerUnavailableError.

Definition result_with (aid : string) (load : float) : AgentResult :=
  mkAgentResult aid "completed" (Text "done") 1730000000.5%float (Some load).

End Scenario.

(** What a dispatch may do to the state besides reading the clock and
    writing the log: touch entries of the pool. *)
Definition steady (s s' : Consciousness) : Prop :=
  Forall2 touched (agents s) (agents s')
  /\ api_key s' = api_key s
  /\ api_endpoint s' = api_endpoint s.

(** A computation keeps a relation between the state it starts in and the
    state it leaves, whether it returns or raises. *)
Definition preserves {A} (R : Consciousness -> Consciousness -> Prop) (m : M A) : Prop :=
  forall s, R s (snd (m s)).

(** Dispatch the tasks one after the other with the built-in executor,
    whatever each returns or raises. *)
Fixpoint dispatch_all (env : Env) (tasks : list (gmap string value)) (s : Consciousness)
  : Consciousness :=
  match tasks with
  | [] => s
  | task :: rest => dispatch_all env rest (snd (builtin_process_cognitive_task env task s))
  end.

(** Inputs for the examples below. *)
Module Examples.

Definition code_task : gmap string value :=
  {[ "id" := VStr "t2"; "type" := VStr "code_analysis"; "data" := VStr "src/" ]}.

Definition environ : gmap string string :=
  {[ "GITHUB_TOKEN" := "ghp_example"; "HOME" := "/root" ]}.

Definition github_server : MCPServer :=
  mkMCPServer "github" "npx" ["-y"; "@smithery/github-mcp-server"]
    [("GITHUB_PERSONAL_ACCESS_TOKEN", "${GITHUB_TOKEN}")]
    "inactive" ["repository_management"; "code_operations"] 0.

Definition filesystem_server : MCPServer :=
  mkMCPServer "filesystem" "npx" ["-y"; "@modelcontextprotocol/server-filesystem"]
    [("FILESYSTEM_ROOT", "./workspace")]
    "inactive" ["file_operations"; "directory_management"] 0.

(** A launcher that finds [npx] only when asked for the GitHub server. *)
Definition only_github : Popen :=
  fun cmd _ =>
    match cmd with
    | [_; _; "@smithery/github-mcp-server"] => None
    | _ => Some (ClientError "No such file or directory")
    end.

(** An executor that always succeeds, with quality 1.0. *)
Definition always_succeeds (agent_task : AgentTask) : M AgentResult :=
  ret (mkAgentResult (at_agent_id agent_task) "completed" (Text "done")
         1730000000.5%float (Some 1%float)).

End Examples.

(** The agents [_deploy_agent_swarm] creates, in the order of creation. *)
Definition swarm_agents : list Agent :=
  (concat (map trinity_team (seq 0 10)) ++ map specialist (seq 0 170))%list.

(** Whether the process of a server starts. *)
Definition launches (environ : gmap string string) (popen : Popen) (server : MCPServer) : bool :=
  match popen (mcp_command server :: mcp_args server) (server_environment environ server) with
  | None => true
  | Some _ => false
  end.

(** The subtask of a specialist whose first capability is [specialty]. *)
Definition specialist_subtask (specialty : string) (task : gmap string value)
  : gmap string value :=
  {[ "action" := VStr "specialized_processing";
     "specialty" := VStr specialty;
     "data" := dict_get task "data" ]}.

(** The agent stored under [aid] is a specialist whose first capability is
    [specialty]. *)
Definition is_specialist_of (specialty : string) (ags : list (string * Agent))
    (aid : string) : bool :=
  match OrderedDict.get ags aid with
  | Some a =>
      match agent_type a, capabilities a with
      | SPECIALIST, c :: _ => String.eqb c specialty
      | _, _ => false
      end
  | None => false
  end.

(** * Properties *)

(** Two floats that the comparison tells apart are different. *)
Ltac float_discriminate H :=
  match type of H with
  | ?a = ?b =>
      apply (f_equal (fun x => PrimFloat.eqb x b)) in H; vm_compute in H; discriminate H
  end.


(** ** The monad and the loops of the fan-out *)

Lemma set_log_app_nil s : set_log (log s ++ []) s = s.
Proof. destruct s; unfold set_log; simpl. by rewrite app_nil_r. Qed.

Lemma returned_length_raised {A} (results : list (exn + A)) :
  length (returned results) + length (raised results) = length results.
Proof.
  induction results as [|[e|a] rs IH]; simpl; [done | |]; unfold returned, raised in *;
    simpl; lia.
Qed.

Lemma length_failure_records ids i results :
  length (failure_records ids i results) = length (raised results).
Proof.
  revert i. induction results as [|[e|a] rs IH]; intros i; simpl; [done | |].
  - unfold raised in *. simpl. by rewrite IH.
  - apply IH.
Qed.

Section DispatchFacts.
Variable env : Env.
Variable execute : AgentTask -> M AgentResult.

(** [gather] always returns, with one entry per awaitable. *)
Lemma gather_total {A} (tasks : list (M A)) s :
  exists results s', gather tasks s = (inr results, s') /\ length results = length tasks.
Proof.
  revert s. induction tasks as [|t rest IH]; intros s; simpl.
  - by exists [], s.
  - unfold bind, attempt. destruct (t s) as [r s1].
    destruct (IH s1) as (rs & s2 & -> & Hlen).
    exists (r :: rs), s2. simpl. by rewrite Hlen.
Qed.

(** Each awaitable is run, in the state its predecessors left, whatever
    they returned or raised. *)
Lemma gather_cons {A} (t : M A) (rest : list (M A)) s :
  gather (t :: rest) s =
    let '(r, s1) := t s in
    let '(rs, s2) := gather rest s1 in
    (match rs with inr l => inr (r :: l) | inl e => inl e end, s2).
Proof.
  simpl. unfold bind, attempt. destruct (t s) as [r s1].
  destruct (gather_total rest s1) as (rs & s2 & -> & _). reflexivity.
Qed.

Lemma filter_valid_spec ids i results s :
  filter_valid ids i results s =
    (inr (returned results), set_log (log s ++ failure_records ids i results) s).
Proof.
  revert i s. induction results as [|[e|a] rs IH]; intros i s; simpl.
  - by rewrite set_log_app_nil.
  - unfold bind, logger, modify. rewrite IH. unfold returned. simpl.
    f_equal. unfold set_log. simpl. by rewrite <- app_assoc.
  - unfold bind. rewrite IH. reflexivity.
Qed.

Lemma decompose_returns task aid s :
  decomposable (agents s) aid = true ->
  exists subtask, _decompose_task_for_agent task aid s = (inr subtask, s).
Proof.
  unfold decomposable, _decompose_task_for_agent, bind, get_self.
  destruct (OrderedDict.get (agents s) aid) as [a|]; [|done].
  destruct (agent_type a); intros H; try (eexists; reflexivity).
  - repeat (case_match; try (eexists; reflexivity)).
  - destruct (capabilities a); [done|]. eexists; reflexivity.
Qed.

Lemma build_agent_tasks_returns task ids s :
  forallb (decomposable (agents s)) ids = true ->
  exists tasks,
    build_agent_tasks ids task s = (inr tasks, s) /\ map at_agent_id tasks = ids.
Proof.
  induction ids as [|aid rest IH]; simpl; intros H.
  - by exists [].
  - apply andb_true_iff in H as [Ha Hr].
    destruct (decompose_returns task aid s Ha) as (sub & Hsub).
    destruct (IH Hr) as (tasks & Htasks & Hids).
    unfold bind. rewrite Hsub, Htasks. eexists. split; [reflexivity|].
    simpl. by rewrite Hids.
Qed.

(** The decomposition only reads the state. *)
Lemma build_agent_tasks_state task ids s :
  snd (build_agent_tasks ids task s) = s.
Proof.
  induction ids as [|aid rest IH]; simpl; [done|].
  unfold bind.
  assert (Hd : snd (_decompose_task_for_agent task aid s) = s).
  { unfold _decompose_task_for_agent, bind, get_self.
    repeat (case_match; try reflexivity). }
  destruct (_decompose_task_for_agent task aid s) as [[e|sub] s1]; simpl in Hd; subst s1;
    [done|].
  destruct (build_agent_tasks rest task s) as [[e|tasks] s2]; simpl in *; by subst.
Qed.
End DispatchFacts.

Section ConsolidationFacts.
Variable env : Env.

Lemma total_confidence_fold results acc :
  fold_left (fun a r => PrimFloat.add a (default 0%float (r_cognitive_load r))) results acc
  = fold_left PrimFloat.add (map quality_of results) acc.
Proof.
  revert acc. induction results as [|r rs IH]; intros acc; simpl; [done|]. apply IH.
Qed.

(** What [_consolidate_results] returns, field by field. *)
Lemma consolidate_spec results tid s :
  _consolidate_results env results tid s =
    (inr (mkOutcome tid "completed" (length results) (time_time env (clock_reads s))
            results (_generate_final_output results)
            (arithmetic_mean (map quality_of results))),
     set_clock_reads (S (clock_reads s)) s).
Proof.
  unfold _consolidate_results, bind, now, ret. do 3 f_equal.
  destruct results as [|r rs]; [done|].
  unfold arithmetic_mean, total_confidence. rewrite total_confidence_fold.
  simpl. by rewrite length_map.
Qed.

(** The storage step returns whatever the memory service does; it leaves
    the pool alone and only adds to the log. *)
Lemma store_returns tid o s :
  exists s', _store_in_memory env tid o s = (inr tt, s')
             /\ agents s' = agents s
             /\ exists r, log s' = (log s ++ [r])%list.
Proof.
  unfold _store_in_memory, bind, get_self, now, logger, modify.
  destruct (api_key s) as [key|]; [|by repeat eexists].
  destruct key as [|c key]; [by repeat eexists|].
  destruct (post_document _ _ _ _) as [code|e]; [|by repeat eexists].
  repeat (case_match; try by repeat eexists).
Qed.
End ConsolidationFacts.

Section ProcessFacts.
Variable env : Env.
Variable execute : AgentTask -> M AgentResult.

Lemma bind_inr {A B} (m : M A) (k : A -> M B) s a s' :
  m s = (inr a, s') -> bind m k s = k a s'.
Proof. intros H. unfold bind. by rewrite H. Qed.

Lemma now_int_returns s z :
  int_of_float (time_time env (clock_reads s)) = Some z ->
  now_int env s = (inr z, set_clock_reads (S (clock_reads s)) s).
Proof. intros H. unfold now_int, bind, now. by rewrite H. Qed.

Lemma coordinate_spec ids task s tasks results s1 :
  build_agent_tasks ids task s = (inr tasks, s) ->
  gather (map execute tasks) s = (inr results, s1) ->
  _coordinate_agent_execution execute ids task s =
    (inr (returned results), set_log (log s1 ++ failure_records ids 0 results) s1).
Proof.
  intros Hb Hg. unfold _coordinate_agent_execution.
  rewrite (bind_inr _ _ _ _ _ Hb), (bind_inr _ _ _ _ _ Hg).
  apply filter_valid_spec.
Qed.

(** The run of [process_cognitive_task] on a pool whose allocated agents
    decompose, step by step. *)
Lemma process_cognitive_task_spec task s z :
  int_of_float (time_time env (clock_reads s)) = Some z ->
  let ids := _allocate_agents_for_task (agents s)
               (dict_get_default task "type" (VStr "general")) in
  forallb (decomposable (agents s)) ids = true ->
  exists tasks results s1 s2,
    build_agent_tasks ids task (started task z s) = (inr tasks, started task z s)
    /\ map at_agent_id tasks = ids
    /\ gather (map execute tasks) (started task z s) = (inr results, s1)
    /\ length results = length ids
    /\ process_cognitive_task env execute task s =
         (inr (mkOutcome (dict_get_default task "id" (VStr ("task_" ++ pretty z)))
                 "completed" (length (returned results))
                 (time_time env (clock_reads s1))
                 (returned results) (_generate_final_output (returned results))
                 (arithmetic_mean (map quality_of (returned results)))),
          s2)
    /\ exists r, log s2 = (log s1 ++ failure_records ids 0 results ++ [r])%list.
Proof.
  intros Hz ids Hdec.
  destruct (build_agent_tasks_returns task ids (started task z s)) as (tasks & Hb & Hids);
    [exact Hdec|].
  destruct (gather_total (map execute tasks) (started task z s)) as (results & s1 & Hg & Hlen).
  rewrite length_map in Hlen.
  set (tid := dict_get_default task "id" (VStr ("task_" ++ pretty z))).
  set (s1' := set_log (log s1 ++ failure_records ids 0 results) s1).
  set (o := mkOutcome tid "completed" (length (returned results))
              (time_time env (clock_reads s1))
              (returned results) (_generate_final_output (returned results))
              (arithmetic_mean (map quality_of (returned results)))).
  destruct (store_returns env tid o (set_clock_reads (S (clock_reads s1')) s1'))
    as (s2 & Hst & _ & r & Hlog).
  exists tasks, results, s1, s2.
  split; [exact Hb|]. split; [exact Hids|]. split; [exact Hg|].
  split; [rewrite Hlen, <- Hids; by rewrite length_map|].
  split.
  - unfold process_cognitive_task.
    rewrite (bind_inr _ _ _ _ _ (now_int_returns s z Hz)).
    unfold bind at 1, logger, modify.
    change (set_log _ (set_clock_reads (S (clock_reads s)) s)) with (started task z s).
    unfold bind at 1, get_self.
    change (agents (started task z s)) with (agents s). fold ids.
    rewrite (bind_inr _ _ _ _ _ (coordinate_spec ids task _ _ _ _ Hb Hg)).
    fold s1'. fold tid.
    rewrite (bind_inr _ _ _ _ _ (consolidate_spec env _ tid s1')). fold o.
    rewrite (bind_inr _ _ _ _ _ Hst). reflexivity.
  - exists r. rewrite Hlog. simpl. by rewrite <- app_assoc.
Qed.
End ProcessFacts.

(** ** The session memory bank *)

Section MemoryBankFacts.
Import AutoMemoryBank.
Variable encodable : value -> bool.

(** On a store, loading cannot raise. *)
Lemma load_from_store (fs : FileSystem) :
  load_all_session_memory_from (Store fs) = inr (VDict (load_all_session_memory fs)).
Proof. by destruct fs. Qed.

(** The three ways a save can go, by what loading the file gives. *)
Lemma save_chat_memory_cases (session_id : string) (chat_data : value) (d : Disk) :
  (exists before,
      load_all_session_memory_from d = inr (VDict before)
      /\ map_Forall (fun _ v => encodable v = true) (<[session_id := chat_data]> before)
      /\ save_chat_memory encodable session_id chat_data d
         = (inr tt, Store (MemoryFile (<[session_id := chat_data]> before))))
  \/ (exists before,
        load_all_session_memory_from d = inr (VDict before)
        /\ ~ map_Forall (fun _ v => encodable v = true) (<[session_id := chat_data]> before)
        /\ save_chat_memory encodable session_id chat_data d = (inl EncoderError, NotJson))
  \/ (exists e,
        (forall before, load_all_session_memory_from d <> inr (VDict before))
        /\ e <> EncoderError
        /\ save_chat_memory encodable session_id chat_data d = (inl e, d)).
Proof.
  assert (Hdict : forall before,
    load_all_session_memory_from d = inr (VDict before) ->
    save_chat_memory encodable session_id chat_data d
    = json_dump encodable (<[session_id := chat_data]> before)).
  { intros before. destruct d as [[| |mem]|v|]; cbn; try congruence.
    destruct v; cbn; congruence. }
  destruct (load_all_session_memory_from d) as [e|v] eqn:Hload.
  - right. right. exists e. split; [done|].
    destruct d as [[| |mem]|v|]; try done. injection Hload as <-. done.
  - destruct v as [|b|z|f|s|l|before];
      try (right; right; exists TypeError; split; [done|]; split; [done|];
           destruct d as [[| |mem]|v|]; try done; cbn in Hload; injection Hload as ->; done).
    rewrite (Hdict before eq_refl). unfold json_dump.
    case_bool_decide; [left|right; left]; by exists before.
Qed.


(** C7.  Saving the same chat data for the same session twice in a row
    leaves the disk exactly as saving it once does, whatever the disk held
    and whether or not the encoder gets through the data: a second save
    after one that returned writes the same dictionary again, and a second
    save after one that raised raises before it opens the file for writing.
    The second save returns exactly when the first did. *)
Theorem save_chat_memory_idempotent (session_id : string) (chat_data : value) (d : Disk) :
  snd (save_chat_memory encodable session_id chat_data
         (snd (save_chat_memory encodable session_id chat_data d)))
  = snd (save_chat_memory encodable session_id chat_data d)
  /\ (fst (save_chat_memory encodable session_id chat_data
             (snd (save_chat_memory encodable session_id chat_data d))) = inr tt
      <-> fst (save_chat_memory encodable session_id chat_data d) = inr tt).
Proof.
  destruct (save_chat_memory_cases session_id chat_data d)
    as [(before & _ & Hall & Hs)|[(before & _ & _ & Hs)|(e & _ & _ & Hs)]].
  - rewrite Hs. cbn [fst snd].
    destruct (save_chat_memory_cases session_id chat_data
                (Store (MemoryFile (<[session_id := chat_data]> before))))
      as [(m & Hm & _ & Hs')|[(m & Hm & Hno & _)|(e & Hm & _)]].
    + injection Hm as <-. rewrite Hs', insert_insert_eq. done.
    + injection Hm as <-. by rewrite insert_insert_eq in Hno.
    + by destruct (Hm (<[session_id := chat_data]> before)).
  - rewrite Hs. done.
  - rewrite Hs. cbn [fst snd]. rewrite Hs. done.
Qed.

End MemoryBankFacts.

(** ** Executor calls in flight *)

Section InFlight.
Import EventLoop.

Lemma run_ready_entering ids :
  run_ready (map execute_agent_task_steps ids)
  = (map Enter ids, map (fun aid => [Emit (Exit aid)]) ids).
Proof.
  induction ids as [|aid rest IH]; simpl; [done|]. by rewrite IH.
Qed.

Lemma run_ready_leaving ids :
  run_ready (map (fun aid => [Emit (Exit aid)]) ids) = (map Exit ids, []).
Proof.
  induction ids as [|aid rest IH]; simpl; [done|]. by rewrite IH.
Qed.

(** Every call is entered before any call returns. *)
Lemma coordinate_trace_spec ids :
  coordinate_trace ids = (map Enter ids ++ map Exit ids)%list.
Proof.
  unfold coordinate_trace, gather_trace, iterations.
  destruct ids as [|aid rest]; [done|].
  remember (aid :: rest) as ids eqn:E.
  assert (Hfuel : exists n, list_sum (map (@length step) (map execute_agent_task_steps ids))
                            = S (S n)).
  { subst ids. simpl. eauto. }
  destruct Hfuel as [n ->].
  change (run_loop (S (S (S n))) (map execute_agent_task_steps ids))
    with (match map execute_agent_task_steps ids with
          | [] => []
          | _ => let '(es, next) := run_ready (map execute_agent_task_steps ids) in
                 (es ++ run_loop (S (S n)) next)%list
          end).
  rewrite run_ready_entering.
  replace (match map execute_agent_task_steps ids with
           | [] => []
           | _ => (map Enter ids ++ run_loop (S (S n))
                     (map (fun aid0 => [Emit (Exit aid0)]) ids))%list
           end)
    with (map Enter ids ++ run_loop (S (S n)) (map (fun aid0 => [Emit (Exit aid0)]) ids))%list
    by (subst ids; reflexivity).
  f_equal.
  change (run_loop (S (S n)) (map (fun aid0 => [Emit (Exit aid0)]) ids))
    with (match map (fun aid0 => [Emit (Exit aid0)]) ids with
          | [] => []
          | _ => let '(es, next) := run_ready (map (fun aid0 => [Emit (Exit aid0)]) ids) in
                 (es ++ run_loop (S n) next)%list
          end).
  rewrite run_ready_leaving. subst ids. simpl. by rewrite app_nil_r.
Qed.

Lemma max_in_flight_leaving cur ids :
  max_in_flight_from cur (map Exit ids) = cur.
Proof.
  revert cur. induction ids as [|aid rest IH]; intros cur; [done|].
  cbn [map max_in_flight_from]. rewrite (IH (Nat.pred cur)). lia.
Qed.

Lemma max_in_flight_entering cur ids leaving :
  max_in_flight_from cur (map Enter ids ++ map Exit leaving) = cur + length ids.
Proof.
  revert cur. induction ids as [|aid rest IH]; intros cur.
  - cbn [map app length]. rewrite max_in_flight_leaving. lia.
  - cbn [map app length max_in_flight_from]. rewrite (IH (S cur)). lia.
Qed.

(** C5, as the code has it.  The fan-out takes no concurrency limit: every
    executor call is entered before any returns, so the number of calls in
    flight reaches the number of workers. *)
Theorem all_calls_in_flight (agent_ids : list string) :
  coordinate_trace agent_ids = (map Enter agent_ids ++ map Exit agent_ids)%list
  /\ max_in_flight (coordinate_trace agent_ids) = length agent_ids.
Proof.
  split; [apply coordinate_trace_spec|].
  rewrite coordinate_trace_spec. unfold max_in_flight.
  by rewrite max_in_flight_entering.
Qed.

(** C5 fails: with five workers, five calls are in flight at once, whatever
    limit one has in mind; a limit of one is exceeded. *)
Lemma five_workers_five_in_flight :
  ~ (forall (agent_ids : list string) (concurrency_limit : nat),
       0 < concurrency_limit ->
       max_in_flight (coordinate_trace agent_ids) <= concurrency_limit).
Proof.
  intros H. specialize (H ["w1"; "w2"; "w3"; "w4"; "w5"] 1 ltac:(lia)).
  vm_compute in H. lia.
Qed.
End InFlight.

(** ** Dispatch: counts and isolation of failures *)

Section IsolationFacts.
Variable execute : AgentTask -> M AgentResult.

(** Every entry [gather] hands back is what the call for the agent task at
    the same position returned or raised. *)
Lemma gather_pointwise tasks s results s1 :
  gather (map execute tasks) s = (inr results, s1) ->
  Forall2 (fun agent_task r => exists si, fst (execute agent_task si) = r) tasks results.
Proof.
  revert s results. induction tasks as [|t rest IH]; intros s results; simpl.
  - unfold ret. intros H. inversion H; subst. constructor.
  - unfold bind, attempt. destruct (execute t s) as [r s'] eqn:Et.
    destruct (gather (map execute rest) s') as [[e|rs] s''] eqn:Eg; [done|].
    unfold ret. intros H. inversion H; subst. constructor; [|by eapply IH].
    exists s. by rewrite Et.
Qed.

(** When every call raises, nothing is returned. *)
Lemma all_raise_none_returned tasks results :
  (forall agent_task s, exists e s', execute agent_task s = (inl e, s')) ->
  Forall2 (fun agent_task r => exists si, fst (execute agent_task si) = r) tasks results ->
  returned results = [] /\ length (raised results) = length tasks.
Proof.
  intros Hraise H. induction H as [|t r ts rs [si Hr] _ [IH1 IH2]]; [done|].
  destruct (Hraise t si) as (e & s' & He). rewrite He in Hr. simpl in Hr. subst r.
  split.
  - change (returned (inl e :: rs)) with (returned rs). exact IH1.
  - change (raised (inl e :: rs)) with (e :: raised rs). simpl. by rewrite IH2.
Qed.
End IsolationFacts.

(** On the deployed swarm every task type is allocated a non-empty list of
    agents, all of which decompose. *)
Lemma deployed_swarm_decomposable (key : option string) (task_type : value) :
  forallb (decomposable (agents (initial_consciousness key)))
    (_allocate_agents_for_task (agents (initial_consciousness key)) task_type) = true.
Proof.
  unfold _allocate_agents_for_task.
  repeat case_match; vm_compute; reflexivity.
Qed.

Lemma deployed_swarm_allocates_workers (key : option string) (task_type : value) :
  0 < length (_allocate_agents_for_task (agents (initial_consciousness key)) task_type).
Proof.
  unfold _allocate_agents_for_task.
  repeat case_match; vm_compute; lia.
Qed.

(** C1, as the code has it.  Whenever the allocated agents decompose (and the
    clock reads a finite time), dispatch returns an outcome; every allocated
    worker is executed, whatever its siblings returned or raised; the outcome
    counts and lists exactly the workers whose call returned; a worker whose
    call raised is left out of the outcome and only written to the log, so
    that [agent_count] and the number of logged failures add up to the number
    of workers. *)
Theorem dispatch_counts_returned_workers (env : Env) (execute : AgentTask -> M AgentResult)
    (task : gmap string value) (s : Consciousness) (z : Z) :
  int_of_float (time_time env (clock_reads s)) = Some z ->
  forallb (decomposable (agents s))
    (_allocate_agents_for_task (agents s) (dict_get_default task "type" (VStr "general")))
  = true ->
  exists tasks results s1 o s2,
    map at_agent_id tasks
    = _allocate_agents_for_task (agents s) (dict_get_default task "type" (VStr "general"))
    /\ gather (map execute tasks) (started task z s) = (inr results, s1)
    /\ Forall2 (fun agent_task r => exists si, fst (execute agent_task si) = r) tasks results
    /\ process_cognitive_task env execute task s = (inr o, s2)
    /\ cognitive_synthesis o = returned results
    /\ agent_count o = length (returned results)
    /\ agent_count o + length (raised results) = length tasks
    /\ exists r,
         log s2 = (log s1 ++ failure_records (map at_agent_id tasks) 0 results ++ [r])%list
         /\ length (failure_records (map at_agent_id tasks) 0 results) = length (raised results).
Proof.
  intros Hz Hdec.
  destruct (process_cognitive_task_spec env execute task s z Hz Hdec)
    as (tasks & results & s1 & s2 & _ & Hids & Hg & Hlen & Hrun & r & Hlog).
  eexists tasks, results, s1, _, s2.
  split; [exact Hids|]. split; [exact Hg|].
  split; [by eapply gather_pointwise|].
  split; [exact Hrun|]. simpl.
  split; [done|]. split; [done|].
  split.
  - rewrite returned_length_raised, Hlen, <- Hids. by rewrite length_map.
  - exists r. rewrite Hids. split; [exact Hlog|]. apply length_failure_records.
Qed.

(** The theorem at the three-worker pool whose second worker times out: two
    workers are counted, one failure is logged. *)
Lemma dispatch_counts_returned_workers_witness :
  exists o s2,
    process_cognitive_task Scenario.env_stored Scenario.w2_times_out Scenario.t1
      Scenario.three_workers = (inr o, s2)
    /\ exists n, agent_count o + n = 3.
Proof.
  destruct (dispatch_counts_returned_workers Scenario.env_stored Scenario.w2_times_out
              Scenario.t1 Scenario.three_workers 1730000000%Z)
    as (tasks & results & s1 & o & s2 & Hids & _ & _ & Hrun & _ & _ & Hsum & _).
  - vm_compute. reflexivity.
  - vm_compute. reflexivity.
  - exists o, s2. split; [exact Hrun|]. exists (length (raised results)).
    rewrite Hsum. rewrite <- (length_map at_agent_id), Hids. vm_compute. reflexivity.
Defined.

(** C1 fails: the outcome carries no count of failed workers.  Dispatching
    three workers of which one times out returns the very outcome that
    dispatching the two others alone returns, so no pair of counts read off
    the outcome adds up to the number of workers in both runs. *)
Lemma failed_workers_leave_no_count :
  ~ (exists succeeded failed : Outcome -> nat,
       forall (env : Env) (execute : AgentTask -> M AgentResult)
              (task : gmap string value) (s : Consciousness) (o : Outcome) (s' : Consciousness),
         _allocate_agents_for_task (agents s) (dict_get_default task "type" (VStr "general"))
         <> [] ->
         process_cognitive_task env execute task s = (inr o, s') ->
         succeeded o + failed o
         = length (_allocate_agents_for_task (agents s)
                     (dict_get_default task "type" (VStr "general")))).
Proof.
  intros (succeeded & failed & H).
  destruct (process_cognitive_task Scenario.env_stored Scenario.w2_times_out Scenario.t1
              Scenario.three_workers) as [r3 s3] eqn:E3.
  destruct (process_cognitive_task Scenario.env_stored Scenario.w2_times_out Scenario.t1
              Scenario.two_workers) as [r2 s2] eqn:E2.
  assert (Hsame : r3 = r2).
  { apply (f_equal fst) in E3, E2. simpl in E3, E2. rewrite <- E3, <- E2.
    vm_compute. reflexivity. }
  assert (Hret : exists o, r3 = inr o).
  { apply (f_equal fst) in E3. simpl in E3. rewrite <- E3. vm_compute. eexists; reflexivity. }
  destruct Hret as [o ->]. subst r2.
  assert (H3 := H Scenario.env_stored Scenario.w2_times_out Scenario.t1
                  Scenario.three_workers o s3).
  assert (H2 := H Scenario.env_stored Scenario.w2_times_out Scenario.t1
                  Scenario.two_workers o s2).
  change (_allocate_agents_for_task _ _) with ["trinity_w1"; "trinity_w2"; "trinity_w3"] in H3.
  change (_allocate_agents_for_task _ _) with ["trinity_w1"; "trinity_w3"] in H2.
  specialize (H3 ltac:(discriminate) E3). specialize (H2 ltac:(discriminate) E2).
  simpl in H3, H2. congruence.
Qed.

(** C2, as the code has it.  When every executor call raises, dispatch still
    returns: the outcome counts no worker, its confidence is 0.0, and its
    final output is the usual synthesis record with a consensus of zero
    agents under the status "completed". *)
Theorem all_workers_fail (env : Env) (execute : AgentTask -> M AgentResult)
    (task : gmap string value) (s : Consciousness) (z : Z) :
  int_of_float (time_time env (clock_reads s)) = Some z ->
  forallb (decomposable (agents s))
    (_allocate_agents_for_task (agents s) (dict_get_default task "type" (VStr "general")))
  = true ->
  (forall agent_task si, exists e s', execute agent_task si = (inl e, s')) ->
  exists o s2,
    process_cognitive_task env execute task s = (inr o, s2)
    /\ agent_count o = 0
    /\ cognitive_synthesis o = []
    /\ confidence_score o = 0%float
    /\ o_status o = "completed"
    /\ final_output o =
         {[ "synthesis_complete" := VBool true;
            "agent_consensus" := VInt 0;
            "output_quality" := VStr "apex";
            "recommendations" := VStr "Cognitive task completed successfully" ]}.
Proof.
  intros Hz Hdec Hraise.
  destruct (process_cognitive_task_spec env execute task s z Hz Hdec)
    as (tasks & results & s1 & s2 & _ & _ & Hg & _ & Hrun & _).
  destruct (all_raise_none_returned execute tasks results Hraise
              (gather_pointwise execute _ _ _ _ Hg)) as [Hnone _].
  rewrite Hnone in Hrun. eexists _, s2. split; [exact Hrun|]. by simpl.
Qed.

(** The theorem on the deployed swarm with an executor that always times
    out. *)
Lemma all_workers_fail_witness :
  exists o s2,
    process_cognitive_task Scenario.env_stored Scenario.always_times_out Scenario.t1
      (initial_consciousness None) = (inr o, s2)
    /\ agent_count o = 0 /\ confidence_score o = 0%float.
Proof.
  destruct (all_workers_fail Scenario.env_stored Scenario.always_times_out Scenario.t1
              (initial_consciousness None) 1730000000%Z)
    as (o & s2 & Hrun & Hcount & _ & Hconf & _).
  - vm_compute. reflexivity.
  - vm_compute. reflexivity.
  - intros agent_task si. by exists WorkerTimeoutError, si.
  - by exists o, s2.
Defined.

(** C2 fails in its last part: when all nine workers of a general task time
    out, the final output is neither empty nor a failure marker; it reports a
    completed synthesis. *)
Lemma all_failed_output_reports_success :
  exists o s2,
    process_cognitive_task Scenario.env_stored Scenario.always_times_out Scenario.t1
      (initial_consciousness None) = (inr o, s2)
    /\ agent_count o = 0
    /\ final_output o !! "synthesis_complete" = Some (VBool true)
    /\ final_output o !! "recommendations"
       = Some (VStr "Cognitive task completed successfully")
    /\ ~ empty_or_failure_marker (final_output o).
Proof.
  eexists _, _. split; [vm_compute; reflexivity|].
  split; [reflexivity|].
  assert (Hsc : _generate_final_output [] !! "synthesis_complete" = Some (VBool true))
    by (vm_compute; reflexivity).
  split; [exact Hsc|]. split; [vm_compute; reflexivity|].
  intros [Hempty | Hflag].
  - change (_generate_final_output [] = ∅) in Hempty.
    rewrite Hempty, lookup_empty in Hsc. discriminate.
  - by apply Hflag.
Qed.

(** ** Dispatch without workers *)

Lemma process_no_workers (env : Env) (execute : AgentTask -> M AgentResult)
    (task : gmap string value) (s : Consciousness) (z : Z) :
  int_of_float (time_time env (clock_reads s)) = Some z ->
  _allocate_agents_for_task (agents s) (dict_get_default task "type" (VStr "general")) = [] ->
  process_cognitive_task env execute task s =
    (let tid := dict_get_default task "id" (VStr ("task_" ++ pretty z)) in
     bind (_consolidate_results env [] tid)
          (fun final_result => _store_in_memory env tid final_result ;; ret final_result)
          (started task z s)).
Proof.
  intros Hz Hnone. unfold process_cognitive_task.
  rewrite (bind_inr _ _ _ _ _ (now_int_returns env s z Hz)).
  unfold bind at 1, logger, modify.
  change (set_log _ (set_clock_reads (S (clock_reads s)) s)) with (started task z s).
  unfold bind at 1, get_self.
  change (agents (started task z s)) with (agents s). rewrite Hnone. reflexivity.
Qed.

(** C3, as the code has it.  An empty worker sequence is no error.  The
    fan-out over no agent ids returns no results without calling the
    executor; and when no agent is allocated, dispatch raises nothing: it
    returns an outcome that counts no worker, with confidence 0.0, again
    without calling the executor (the outcome and the final state are the
    same for every executor). *)
Theorem no_workers_returns_empty_outcome :
  (forall (execute : AgentTask -> M AgentResult) (task : gmap string value)
          (s : Consciousness),
      _coordinate_agent_execution execute [] task s = (inr [], s))
  /\ (forall (env : Env) (task : gmap string value) (s : Consciousness) (z : Z),
        int_of_float (time_time env (clock_reads s)) = Some z ->
        _allocate_agents_for_task (agents s) (dict_get_default task "type" (VStr "general"))
        = [] ->
        exists o s2,
          (forall execute : AgentTask -> M AgentResult,
              process_cognitive_task env execute task s = (inr o, s2))
          /\ agent_count o = 0
          /\ cognitive_synthesis o = []
          /\ confidence_score o = 0%float
          /\ o_status o = "completed").
Proof.
  split; [reflexivity|].
  intros env task s z Hz Hnone.
  set (tid := dict_get_default task "id" (VStr ("task_" ++ pretty z))).
  pose proof (consolidate_spec env [] tid (started task z s)) as Hc.
  set (o := mkOutcome tid "completed" 0 (time_time env (clock_reads (started task z s))) []
              (_generate_final_output []) 0%float).
  destruct (store_returns env tid o
              (set_clock_reads (S (clock_reads (started task z s))) (started task z s)))
    as (s2 & Hst & _).
  exists o, s2. split; [|by simpl].
  intros execute. rewrite (process_no_workers env execute task s z Hz Hnone).
  cbv zeta. fold tid.
  rewrite (bind_inr _ _ _ _ _ Hc). fold o.
  by rewrite (bind_inr _ _ _ _ _ Hst).
Qed.

(** The theorem on a pool without trinity agents, for a general task. *)
Lemma no_workers_returns_empty_outcome_witness :
  exists o s2,
    process_cognitive_task Scenario.env_stored Scenario.always_unavailable Scenario.t1
      Scenario.no_trinity = (inr o, s2)
    /\ agent_count o = 0.
Proof.
  destruct no_workers_returns_empty_outcome as [_ Hnone].
  destruct (Hnone Scenario.env_stored Scenario.t1 Scenario.no_trinity 1730000000%Z)
    as (o & s2 & Hrun & Hcount & _).
  - vm_compute. reflexivity.
  - vm_compute. reflexivity.
  - exists o, s2. split; [apply Hrun | exact Hcount].
Defined.

(** C3 fails: the fan-out over an empty list of agent ids returns the empty
    list of results; and a general task dispatched on a pool whose agents
    have all been replaced by a memory agent has no worker, yet dispatch
    returns an outcome instead of raising. *)
Lemma empty_worker_set_is_not_an_error :
  fst (_coordinate_agent_execution Scenario.always_unavailable [] Scenario.t1
         (initial_consciousness None)) = inr []
  /\ _allocate_agents_for_task (agents Scenario.no_trinity)
       (dict_get_default Scenario.t1 "type" (VStr "general")) = []
  /\ exists o s2,
       process_cognitive_task Scenario.env_stored Scenario.always_unavailable Scenario.t1
         Scenario.no_trinity = (inr o, s2)
       /\ o_status o = "completed".
Proof.
  split; [reflexivity|]. split; [vm_compute; reflexivity|].
  eexists _, _. split; [vm_compute; reflexivity|]. reflexivity.
Qed.

(** ** Consolidation *)

(** C4, as the code has it.  Of what [_consolidate_results] returns, the
    count, the list of results, the final output and the confidence score are
    functions of the result list alone, the confidence being the mean of the
    [cognitive_load] entries (0.0 where absent) of all the results it is
    given, or 0.0 for none; the task id is its second argument and the
    processing time is the clock reading.  In dispatch the results it is
    given are those of the workers whose call returned.  For three workers of
    which the second times out and the others succeed with quality 1.0, the
    outcome counts 2 agents with confidence 1.0, and the failure is in the
    log only. *)
Theorem consolidate_confidence_is_mean :
  (forall (env : Env) (results : list AgentResult) (tid : value) (s : Consciousness),
      exists o,
        _consolidate_results env results tid s = (inr o, set_clock_reads (S (clock_reads s)) s)
        /\ task_id o = tid
        /\ processing_time o = time_time env (clock_reads s)
        /\ agent_count o = length results
        /\ cognitive_synthesis o = results
        /\ final_output o = _generate_final_output results
        /\ confidence_score o = arithmetic_mean (map quality_of results))
  /\ (forall (env : Env) (execute : AgentTask -> M AgentResult) (task : gmap string value)
             (s : Consciousness) (z : Z),
        int_of_float (time_time env (clock_reads s)) = Some z ->
        forallb (decomposable (agents s))
          (_allocate_agents_for_task (agents s)
             (dict_get_default task "type" (VStr "general"))) = true ->
        exists tasks results s1 o s2,
          gather (map execute tasks) (started task z s) = (inr results, s1)
          /\ process_cognitive_task env execute task s = (inr o, s2)
          /\ confidence_score o = arithmetic_mean (map quality_of (returned results)))
  /\ (exists o s2,
        process_cognitive_task Scenario.env_stored Scenario.w2_times_out Scenario.t1
          Scenario.three_workers = (inr o, s2)
        /\ agent_count o = 2
        /\ confidence_score o = 1%float
        /\ log s2 = [ InfoProcessing (VStr "t1");
                      ErrorAgentFailed "trinity_w2" WorkerTimeoutError;
                      WarningApiKeyMissing ]).
Proof.
  split; [|split].
  - intros env results tid s. eexists. split; [apply consolidate_spec|]. by simpl.
  - intros env execute task s z Hz Hdec.
    destruct (process_cognitive_task_spec env execute task s z Hz Hdec)
      as (tasks & results & s1 & s2 & _ & _ & Hg & _ & Hrun & _).
    eexists tasks, results, s1, _, s2. split; [exact Hg|]. split; [exact Hrun|]. by simpl.
  - eexists _, _. split; [vm_compute; reflexivity|].
    split; [reflexivity|]. split; reflexivity.
Qed.

(** The theorem at the three-worker pool whose second worker times out:
    the confidence is the mean over the two results that came back. *)
Lemma consolidate_confidence_is_mean_witness :
  exists o s2 results,
    process_cognitive_task Scenario.env_stored Scenario.w2_times_out Scenario.t1
      Scenario.three_workers = (inr o, s2)
    /\ confidence_score o = arithmetic_mean (map quality_of (returned results)).
Proof.
  destruct consolidate_confidence_is_mean as (_ & Hdispatch & _).
  destruct (Hdispatch Scenario.env_stored Scenario.w2_times_out Scenario.t1
              Scenario.three_workers 1730000000%Z)
    as (tasks & results & s1 & o & s2 & _ & Hrun & Hconf).
  - vm_compute. reflexivity.
  - vm_compute. reflexivity.
  - by exists o, s2, results.
Defined.

(** C4 fails: [_consolidate_results] is not a function of the result set,
    since the same results consolidated at two clock readings give two
    outcomes; and it records no failed count, since consolidating after one of
    three workers timed out gives the outcome of dispatching the two others
    alone. *)
Lemma consolidate_is_not_a_function_of_the_results :
  fst (_consolidate_results Scenario.ticking_env [] (VStr "t1") Scenario.three_workers)
  <> fst (_consolidate_results Scenario.ticking_env [] (VStr "t1")
            (set_clock_reads 1 Scenario.three_workers))
  /\ fst (process_cognitive_task Scenario.env_stored Scenario.w2_times_out Scenario.t1
            Scenario.three_workers)
     = fst (process_cognitive_task Scenario.env_stored Scenario.w2_times_out Scenario.t1
              Scenario.two_workers).
Proof.
  split; [|vm_compute; reflexivity].
  intros H.
  apply (f_equal (fun r => match r with
                           | inr o => processing_time o
                           | inl _ => 0%float
                           end)) in H.
  vm_compute in H. float_discriminate H.
Qed.

Lemma map_constant {A B} (f : A -> B) (q : B) (l : list A) :
  Forall (fun x => f x = q) l -> map f l = replicate (length l) q.
Proof. induction 1 as [|x l Hx _ IH]; simpl; [done|]. by rewrite Hx, IH. Qed.

(** C6, as the code has it.  Consolidating a permutation of a result
    sequence gives the same task id, status, agent count, processing time and
    final output; the list of results kept in the outcome follows the order
    of the input, so it is a permutation of the other; the confidence score
    is a floating-point sum taken in the order of the input, and it is the
    same whenever all results carry the same [cognitive_load] (as those of
    the built-in executor do). *)
Theorem consolidate_permutation (env : Env) (results results' : list AgentResult)
    (tid : value) (s : Consciousness) :
  results ≡ₚ results' ->
  exists o o' s1,
    _consolidate_results env results tid s = (inr o, s1)
    /\ _consolidate_results env results' tid s = (inr o', s1)
    /\ task_id o = task_id o'
    /\ o_status o = o_status o'
    /\ agent_count o = agent_count o'
    /\ processing_time o = processing_time o'
    /\ final_output o = final_output o'
    /\ cognitive_synthesis o ≡ₚ cognitive_synthesis o'
    /\ (forall q, Forall (fun r => quality_of r = q) results ->
                  confidence_score o = confidence_score o').
Proof.
  intros Hperm. eexists _, _, _.
  split; [apply consolidate_spec|]. split; [apply consolidate_spec|]. simpl.
  pose proof (Permutation_length Hperm) as Hlen.
  split; [done|]. split; [done|]. split; [done|]. split; [done|].
  split; [unfold _generate_final_output; by rewrite Hlen|].
  split; [done|].
  intros q Hq.
  assert (Hq' : Forall (fun r => quality_of r = q) results') by (by rewrite <- Hperm).
  rewrite (map_constant _ _ _ Hq), (map_constant _ _ _ Hq'). by rewrite Hlen.
Qed.

(** The theorem at two results of the built-in quality, swapped. *)
Lemma consolidate_permutation_witness :
  exists o o',
    fst (_consolidate_results Scenario.env_stored
           [Scenario.result_with "a" 0.85%float; Scenario.result_with "b" 0.85%float]
           (VStr "t1") Scenario.three_workers) = inr o
    /\ fst (_consolidate_results Scenario.env_stored
           [Scenario.result_with "b" 0.85%float; Scenario.result_with "a" 0.85%float]
           (VStr "t1") Scenario.three_workers) = inr o'
    /\ confidence_score o = confidence_score o'.
Proof.
  destruct (consolidate_permutation Scenario.env_stored
              [Scenario.result_with "a" 0.85%float; Scenario.result_with "b" 0.85%float]
              [Scenario.result_with "b" 0.85%float; Scenario.result_with "a" 0.85%float]
              (VStr "t1") Scenario.three_workers)
    as (o & o' & s1 & Hrun & Hrun' & _ & _ & _ & _ & _ & _ & Hconf).
  - apply perm_swap.
  - exists o, o'. rewrite Hrun, Hrun'. split; [reflexivity|]. split; [reflexivity|].
    apply (Hconf 0.85%float). repeat constructor.
Defined.

(** C6 fails: swapping two results changes the outcome, which lists them in
    the order given; and moving a large score from the front to the back of
    three changes the confidence score itself, because the floating-point
    sum depends on the order. *)
Lemma consolidation_depends_on_order :
  ([Scenario.result_with "a" 1%float; Scenario.result_with "b" 1%float]
     ≡ₚ [Scenario.result_with "b" 1%float; Scenario.result_with "a" 1%float]
   /\ fst (_consolidate_results Scenario.env_stored
             [Scenario.result_with "a" 1%float; Scenario.result_with "b" 1%float]
             (VStr "t1") Scenario.three_workers)
      <> fst (_consolidate_results Scenario.env_stored
                [Scenario.result_with "b" 1%float; Scenario.result_with "a" 1%float]
                (VStr "t1") Scenario.three_workers))
  /\ ([Scenario.result_with "a" 1e16%float; Scenario.result_with "b" 1%float;
       Scenario.result_with "c" 1%float]
        ≡ₚ [Scenario.result_with "b" 1%float; Scenario.result_with "c" 1%float;
            Scenario.result_with "a" 1e16%float]
      /\ exists o o',
           fst (_consolidate_results Scenario.env_stored
                  [Scenario.result_with "a" 1e16%float; Scenario.result_with "b" 1%float;
                   Scenario.result_with "c" 1%float]
                  (VStr "t1") Scenario.three_workers) = inr o
           /\ fst (_consolidate_results Scenario.env_stored
                     [Scenario.result_with "b" 1%float; Scenario.result_with "c" 1%float;
                      Scenario.result_with "a" 1e16%float]
                     (VStr "t1") Scenario.three_workers) = inr o'
           /\ confidence_score o <> confidence_score o').
Proof.
  split; split.
  - apply perm_swap.
  - intros H.
    apply (f_equal (fun r => match r with
                             | inr o => map r_agent_id (cognitive_synthesis o)
                             | inl _ => []
                             end)) in H.
    vm_compute in H. discriminate H.
  - etransitivity; [apply perm_swap|]. apply perm_skip, perm_swap.
  - eexists _, _. split; [vm_compute; reflexivity|]. split; [vm_compute; reflexivity|].
    intros H. vm_compute in H. float_discriminate H.
Qed.

(** ** Storage *)

Lemma bind_fst_ext {A B} (m : M A) (k1 k2 : A -> M B) s :
  (forall a s', fst (k1 a s') = fst (k2 a s')) ->
  fst (bind m k1 s) = fst (bind m k2 s).
Proof. intros H. unfold bind. destruct (m s) as [[e|a] s']; [done|apply H]. Qed.

(** C8, as the code has it.  What dispatch returns does not depend on the
    answer of the memory service: the outcome computed by consolidation is
    returned unchanged whether the upload succeeds, is rejected or cannot be
    made.  The storage step never raises; a rejected or failed upload is
    written to the log and nowhere else. *)
Theorem storage_outcome_not_in_result :
  (forall (clock : nat -> float)
          (post post' : string -> string -> MemoryContent -> HttpOutcome)
          (execute : AgentTask -> M AgentResult) (task : gmap string value)
          (s : Consciousness),
      fst (process_cognitive_task (mkEnv clock post) execute task s)
      = fst (process_cognitive_task (mkEnv clock post') execute task s))
  /\ (forall (env : Env) (tid : value) (o : Outcome) (s : Consciousness),
        fst (_store_in_memory env tid o s) = inr tt)
  /\ (forall (env : Env) (tid : value) (o : Outcome) (s : Consciousness) (c : Ascii.ascii)
             (key : string) (e : exn),
        api_key s = Some (String c key) ->
        (forall url k content, post_document env url k content = Failed e) ->
        log (snd (_store_in_memory env tid o s)) = (log s ++ [ErrorMemoryError e])%list)
  /\ (forall (env : Env) (tid : value) (o : Outcome) (s : Consciousness) (c : Ascii.ascii)
             (key : string) (code : Z),
        api_key s = Some (String c key) ->
        code <> 200%Z ->
        (forall url k content, post_document env url k content = Responded code) ->
        log (snd (_store_in_memory env tid o s)) = (log s ++ [ErrorMemoryFailed code])%list).
Proof.
  split; [|split; [|split]].
  - intros clock post post' execute task s. unfold process_cognitive_task.
    change (now_int (mkEnv clock post')) with (now_int (mkEnv clock post)).
    apply bind_fst_ext; intros z s1.
    apply bind_fst_ext; intros _ s2.
    apply bind_fst_ext; intros self s3.
    apply bind_fst_ext; intros results s4.
    change (_consolidate_results (mkEnv clock post')) with
      (_consolidate_results (mkEnv clock post)).
    apply bind_fst_ext; intros final_result s5.
    destruct (store_returns (mkEnv clock post) (dict_get_default task "id"
                (VStr ("task_" ++ pretty z))) final_result s5) as (s6 & H6 & _).
    destruct (store_returns (mkEnv clock post') (dict_get_default task "id"
                (VStr ("task_" ++ pretty z))) final_result s5) as (s6' & H6' & _).
    by rewrite (bind_inr _ _ _ _ _ H6), (bind_inr _ _ _ _ _ H6').
  - intros env tid o s. destruct (store_returns env tid o s) as (s' & -> & _). reflexivity.
  - intros env tid o s c key e Hkey Hpost.
    unfold _store_in_memory, bind, get_self, now, logger, modify.
    rewrite Hkey. simpl. by rewrite Hpost.
  - intros env tid o s c key code Hkey Hcode Hpost.
    unfold _store_in_memory, bind, get_self, now, logger, modify.
    rewrite Hkey. simpl. rewrite Hpost.
    repeat (case_match; try reflexivity); congruence.
Qed.

(** The theorem at a memory service that cannot be reached: the storage
    step returns and leaves one error record in the log. *)
Lemma storage_outcome_not_in_result_witness :
  log (snd (_store_in_memory Scenario.env_unreachable (VStr "t1")
              (mkOutcome (VStr "t1") "completed" 0 1730000000.5%float []
                 (_generate_final_output []) 0%float)
              (initial_consciousness (Some "key"))))
  = [ErrorMemoryError (ClientError "connection refused")].
Proof.
  destruct storage_outcome_not_in_result as (_ & _ & Hfailed & _).
  exact (Hfailed Scenario.env_unreachable (VStr "t1")
           (mkOutcome (VStr "t1") "completed" 0 1730000000.5%float []
              (_generate_final_output []) 0%float)
           (initial_consciousness (Some "key")) _ _
           (ClientError "connection refused") eq_refl (fun _ _ _ => eq_refl)).
Defined.

(** C8 fails in its first part: dispatch returns the same value whether the
    upload is stored or fails, so nothing on the return value reports a
    storage failure; the two runs differ in the log only. *)
Lemma storage_failure_is_only_logged :
  fst (builtin_process_cognitive_task Scenario.env_stored Scenario.t1
         (initial_consciousness (Some "key")))
  = fst (builtin_process_cognitive_task Scenario.env_unreachable Scenario.t1
           (initial_consciousness (Some "key")))
  /\ log (snd (builtin_process_cognitive_task Scenario.env_stored Scenario.t1
                 (initial_consciousness (Some "key"))))
     = [InfoProcessing (VStr "t1"); InfoMemoryStored (VStr "t1")]
  /\ log (snd (builtin_process_cognitive_task Scenario.env_unreachable Scenario.t1
                 (initial_consciousness (Some "key"))))
     = [InfoProcessing (VStr "t1"); ErrorMemoryError (ClientError "connection refused")]
  /\ ~ (exists stored : exn + Outcome -> bool,
          stored (fst (builtin_process_cognitive_task Scenario.env_stored Scenario.t1
                         (initial_consciousness (Some "key")))) = true
          /\ stored (fst (builtin_process_cognitive_task Scenario.env_unreachable Scenario.t1
                            (initial_consciousness (Some "key")))) = false).
Proof.
  assert (Hsame :
    fst (builtin_process_cognitive_task Scenario.env_stored Scenario.t1
           (initial_consciousness (Some "key")))
    = fst (builtin_process_cognitive_task Scenario.env_unreachable Scenario.t1
             (initial_consciousness (Some "key"))))
    by (vm_compute; reflexivity).
  split; [exact Hsame|]. split; [vm_compute; reflexivity|].
  split; [vm_compute; reflexivity|].
  intros (stored & Hok & Hdown). rewrite Hsame in Hok. congruence.
Qed.

(** ** Decomposition *)

Lemma decompose_state task aid s :
  snd (_decompose_task_for_agent task aid s) = s.
Proof.
  unfold _decompose_task_for_agent, bind, get_self.
  repeat (case_match; try reflexivity).
Qed.

(** One agent task per agent id, in the order of the ids. *)
Lemma build_agent_tasks_ids task ids s tasks s' :
  build_agent_tasks ids task s = (inr tasks, s') ->
  s' = s /\ map at_agent_id tasks = ids.
Proof.
  intros H. split.
  - pose proof (build_agent_tasks_state task ids s) as Hs. by rewrite H in Hs.
  - revert tasks s' H. induction ids as [|aid rest IH]; intros tasks s' H; simpl in H.
    + by inversion H.
    + unfold bind in H.
      pose proof (decompose_state task aid s) as Hd.
      destruct (_decompose_task_for_agent task aid s) as [[e|sub] s1]; [done|].
      simpl in Hd. subst s1.
      destruct (build_agent_tasks rest task s) as [[e|ts] s2] eqn:E; [done|].
      inversion H; subst. simpl. f_equal. by eapply IH.
Qed.

(** The action does not depend on the task. *)
Lemma decompose_action_of_worker task task' aid s :
  subtask_action (fst (_decompose_task_for_agent task aid s))
  = subtask_action (fst (_decompose_task_for_agent task' aid s)).
Proof.
  unfold _decompose_task_for_agent, bind, get_self.
  repeat (case_match; try reflexivity).
Qed.

(** C9, as the code has it.  The decomposition makes exactly one subtask per
    worker, in the order of the workers, and chooses the action by the
    worker, never by the task: a trinity agent whose id contains "ingest",
    "analyze" or "publish" gets the data-ingestion, analysis or
    result-synthesis action, a specialist gets specialized processing of its
    first capability, and only a worker of another kind (or a trinity agent
    without a role in its id) gets the "general_processing" action with the
    full task.  On the deployed swarm a task whose type is not one of the
    three allocated by capability goes to the first three trinity teams,
    whose nine subtasks carry the three role actions in turn. *)
Theorem decomposition_follows_the_worker :
  (forall (task : gmap string value) (ids : list string) (s s' : Consciousness)
          (tasks : list AgentTask),
      build_agent_tasks ids task s = (inr tasks, s') ->
      s' = s /\ map at_agent_id tasks = ids /\ length tasks = length ids)
  /\ (forall (task task' : gmap string value) (aid : string) (s : Consciousness),
        subtask_action (fst (_decompose_task_for_agent task aid s))
        = subtask_action (fst (_decompose_task_for_agent task' aid s)))
  /\ (forall (task : gmap string value) (aid : string) (s : Consciousness) (agent : Agent),
        OrderedDict.get (agents s) aid = Some agent ->
        fst (_decompose_task_for_agent task aid s) =
          match agent_type agent with
          | TRINITY =>
              if str_contains "ingest" aid then
                inr {[ "action" := VStr "data_ingestion"; "target" := dict_get task "input" ]}
              else if str_contains "analyze" aid then
                inr {[ "action" := VStr "analysis"; "focus" := dict_get task "analysis_type" ]}
              else if str_contains "publish" aid then
                inr {[ "action" := VStr "result_synthesis";
                       "format" := dict_get task "output_format" ]}
              else inr (general_processing task)
          | SPECIALIST =>
              match capabilities agent with
              | [] => inl IndexError
              | c :: _ =>
                  inr {[ "action" := VStr "specialized_processing";
                         "specialty" := VStr c;
                         "data" := dict_get task "data" ]}
              end
          | ORCHESTRATOR | MEMORY | PROCESSOR => inr (general_processing task)
          end)
  /\ (forall (task : gmap string value) (key : option string),
        value_eq_str (dict_get_default task "type" (VStr "general")) "file_organization"
        = false ->
        value_eq_str (dict_get_default task "type" (VStr "general")) "document_processing"
        = false ->
        value_eq_str (dict_get_default task "type" (VStr "general")) "code_analysis"
        = false ->
        exists tasks,
          build_agent_tasks
            (_allocate_agents_for_task (agents (initial_consciousness key))
               (dict_get_default task "type" (VStr "general")))
            task (initial_consciousness key)
          = (inr tasks, initial_consciousness key)
          /\ map at_agent_id tasks =
               [ "trinity_00_ingest"; "trinity_00_analyze"; "trinity_00_publish";
                 "trinity_01_ingest"; "trinity_01_analyze"; "trinity_01_publish";
                 "trinity_02_ingest"; "trinity_02_analyze"; "trinity_02_publish" ]
          /\ map (fun agent_task => at_subtask agent_task !! "action") tasks =
               [ Some (VStr "data_ingestion"); Some (VStr "analysis");
                 Some (VStr "result_synthesis");
                 Some (VStr "data_ingestion"); Some (VStr "analysis");
                 Some (VStr "result_synthesis");
                 Some (VStr "data_ingestion"); Some (VStr "analysis");
                 Some (VStr "result_synthesis") ]).
Proof.
  split; [|split; [|split]].
  - intros task ids s s' tasks H.
    destruct (build_agent_tasks_ids _ _ _ _ _ H) as [Hs Hids].
    split; [exact Hs|]. split; [exact Hids|].
    by rewrite <- Hids, length_map.
  - apply decompose_action_of_worker.
  - intros task aid s agent Hget.
    unfold _decompose_task_for_agent, bind, get_self. rewrite Hget.
    repeat (case_match; try reflexivity).
  - intros task key H1 H2 H3.
    unfold _allocate_agents_for_task. rewrite H1, H2, H3.
    eexists. split; [vm_compute; reflexivity|].
    split; vm_compute; reflexivity.
Qed.

(** The theorem on the deployed swarm, for the task of type "general". *)
Lemma decomposition_follows_the_worker_witness :
  exists tasks,
    build_agent_tasks
      (_allocate_agents_for_task (agents (initial_consciousness None))
         (dict_get_default Scenario.t1 "type" (VStr "general")))
      Scenario.t1 (initial_consciousness None)
    = (inr tasks, initial_consciousness None)
    /\ length tasks = 9.
Proof.
  destruct decomposition_follows_the_worker as (_ & _ & _ & Hswarm).
  destruct (Hswarm Scenario.t1 None) as (tasks & Hrun & Hids & _).
  - vm_compute. reflexivity.
  - vm_compute. reflexivity.
  - vm_compute. reflexivity.
  - exists tasks. split; [exact Hrun|].
    rewrite <- (length_map at_agent_id), Hids. reflexivity.
Defined.

(** C9 fails in its second part: the type "general" is in no table, and yet
    none of the nine workers of such a task gets the "general_processing"
    action; the first one gets "data_ingestion" with the task's input. *)
Lemma unknown_type_gets_role_actions :
  exists tasks,
    build_agent_tasks
      (_allocate_agents_for_task (agents (initial_consciousness None))
         (dict_get_default Scenario.t1 "type" (VStr "general")))
      Scenario.t1 (initial_consciousness None)
    = (inr tasks, initial_consciousness None)
    /\ length tasks = 9
    /\ at_subtask <$> head tasks
       = Some {[ "action" := VStr "data_ingestion"; "target" := VNone ]}
    /\ Forall (fun agent_task => at_subtask agent_task <> general_processing Scenario.t1) tasks.
Proof.
  eexists. split; [vm_compute; reflexivity|].
  split; [reflexivity|]. split; [vm_compute; reflexivity|].
  repeat constructor;
    (intros H; apply (f_equal (fun d : gmap string value => d !! "action")) in H;
     vm_compute in H; discriminate H).
Qed.




(** * Further properties of the code *)

(** ** Allocation *)

Lemma get_of_key {V} (d : list (string * V)) (k : string) :
  k ∈ OrderedDict.keys d -> exists v, OrderedDict.get d k = Some v.
Proof.
  unfold OrderedDict.keys. induction d as [|[k' v'] d IH]; simpl; intros H.
  - by apply elem_of_nil in H.
  - destruct (String.eqb k' k) eqn:E; [by eexists|].
    apply elem_of_cons in H as [->|H]; [by rewrite String.eqb_refl in E|by apply IH].
Qed.

Lemma get_of_entry {V} (d : list (string * V)) (k : string) (v : V) :
  NoDup (OrderedDict.keys d) -> (k, v) ∈ d -> OrderedDict.get d k = Some v.
Proof.
  unfold OrderedDict.keys. induction d as [|[k' v'] d IH]; simpl; intros Hnd H.
  - by apply elem_of_nil in H.
  - apply NoDup_cons in Hnd as [Hk' Hnd].
    apply elem_of_cons in H as [[= -> ->]|H]; [by rewrite String.eqb_refl|].
    destruct (String.eqb k' k) eqn:E; [|by apply IH].
    apply String.eqb_eq in E. subst k'. exfalso. apply Hk'.
    apply list_elem_of_In, in_map_iff. exists (k, v). split; [done|by apply list_elem_of_In].
Qed.

Lemma get_by_capability_sublist ags capability :
  _get_agents_by_capability ags capability `sublist_of` OrderedDict.keys ags.
Proof.
  unfold _get_agents_by_capability, OrderedDict.keys.
  induction ags as [|p ags IH]; simpl; [constructor|].
  rewrite filter_cons. case_decide; simpl; by constructor.
Qed.

Lemma allocate_sublist ags task_type :
  _allocate_agents_for_task ags task_type `sublist_of` OrderedDict.keys ags.
Proof.
  unfold _allocate_agents_for_task.
  repeat case_match; try apply get_by_capability_sublist.
  etransitivity; [apply sublist_take|]. apply sublist_filter.
Qed.

(** X1.  Whatever the pool and the task type, the allocated agent ids are
    keys of the pool, in the order of the pool, so that the decomposition of
    an allocated agent never raises [KeyError]. *)
Theorem allocated_agents_are_pool_agents (task : gmap string value) (s : Consciousness)
    (task_type : value) :
  _allocate_agents_for_task (agents s) task_type `sublist_of` OrderedDict.keys (agents s)
  /\ Forall (fun aid =>
               (exists agent, OrderedDict.get (agents s) aid = Some agent)
               /\ forall k, fst (_decompose_task_for_agent task aid s) <> inl (KeyError k))
       (_allocate_agents_for_task (agents s) task_type).
Proof.
  split; [apply allocate_sublist|].
  apply Forall_forall. intros aid Hin.
  assert (Hkey : aid ∈ OrderedDict.keys (agents s))
    by (eapply elem_of_sublist; [exact Hin|apply allocate_sublist]).
  destruct (get_of_key _ _ Hkey) as [agent Hget].
  split; [by exists agent|].
  intros k. unfold _decompose_task_for_agent, bind, get_self. rewrite Hget.
  repeat (case_match; try discriminate).
Qed.

Lemma capability_allocation_decomposable ags capability :
  unique_keys ags ->
  forallb (decomposable ags) (_get_agents_by_capability ags capability) = true.
Proof.
  intros Hnd. apply forallb_forall. intros aid Hin.
  unfold _get_agents_by_capability in Hin.
  apply in_map_iff in Hin as ([k agent] & <- & Hp).
  apply list_elem_of_In, list_elem_of_filter in Hp as [Hcap Hp]. simpl in *.
  unfold decomposable. rewrite (get_of_entry _ _ _ Hnd Hp).
  destruct (capabilities agent); [discriminate|]. by destruct (agent_type agent).
Qed.

(** X2.  On a pool with unique keys, a task of one of the three types that
    are allocated by capability is always dispatched to the end: every
    allocated agent has a capability, hence decomposes, and dispatch returns
    an outcome whatever the executor does. *)
Theorem capability_tasks_always_dispatch (env : Env) (execute : AgentTask -> M AgentResult)
    (task : gmap string value) (s : Consciousness) (z : Z) :
  unique_keys (agents s) ->
  int_of_float (time_time env (clock_reads s)) = Some z ->
  value_eq_str (dict_get_default task "type" (VStr "general")) "file_organization"
  || value_eq_str (dict_get_default task "type" (VStr "general")) "document_processing"
  || value_eq_str (dict_get_default task "type" (VStr "general")) "code_analysis" = true ->
  exists o s2, process_cognitive_task env execute task s = (inr o, s2).
Proof.
  intros Hnd Hz Hty.
  destruct (process_cognitive_task_spec env execute task s z Hz)
    as (tasks & results & s1 & s2 & _ & _ & _ & _ & Hrun & _).
  - unfold _allocate_agents_for_task.
    repeat case_match; try by apply capability_allocation_decomposable.
    simpl in Hty. discriminate.
  - eauto.
Qed.

Lemma general_allocation ags task_type :
  value_eq_str task_type "file_organization" = false ->
  value_eq_str task_type "document_processing" = false ->
  value_eq_str task_type "code_analysis" = false ->
  length (_allocate_agents_for_task ags task_type) <= 9
  /\ Forall (fun aid => str_contains "trinity" aid = true)
       (_allocate_agents_for_task ags task_type).
Proof.
  intros H1 H2 H3. unfold _allocate_agents_for_task. rewrite H1, H2, H3. split.
  - rewrite length_take. lia.
  - apply Forall_forall. intros aid Hin.
    apply elem_of_take in Hin as (i & Hin & _).
    apply list_elem_of_lookup_2, list_elem_of_filter in Hin. tauto.
Qed.

(** X3.  A task whose type is none of the three allocated by capability is
    fanned out to at most nine agents, all with "trinity" in their id,
    however large the pool is; its outcome counts at most nine agents. *)
Theorem general_tasks_reach_at_most_nine_agents (env : Env)
    (execute : AgentTask -> M AgentResult) (task : gmap string value)
    (s : Consciousness) (z : Z) :
  int_of_float (time_time env (clock_reads s)) = Some z ->
  forallb (decomposable (agents s))
    (_allocate_agents_for_task (agents s) (dict_get_default task "type" (VStr "general")))
  = true ->
  value_eq_str (dict_get_default task "type" (VStr "general")) "file_organization" = false ->
  value_eq_str (dict_get_default task "type" (VStr "general")) "document_processing" = false ->
  value_eq_str (dict_get_default task "type" (VStr "general")) "code_analysis" = false ->
  Forall (fun aid => str_contains "trinity" aid = true)
    (_allocate_agents_for_task (agents s) (dict_get_default task "type" (VStr "general")))
  /\ exists o s2,
       process_cognitive_task env execute task s = (inr o, s2)
       /\ agent_count o <= 9.
Proof.
  intros Hz Hdec H1 H2 H3.
  destruct (general_allocation (agents s) _ H1 H2 H3) as [Hlen Htrinity].
  split; [exact Htrinity|].
  destruct (process_cognitive_task_spec env execute task s z Hz Hdec)
    as (tasks & results & s1 & s2 & _ & _ & _ & Hres & Hrun & _).
  eexists _, s2. split; [exact Hrun|]. simpl.
  pose proof (returned_length_raised results). lia.
Qed.

Lemma all_return_all_returned (execute : AgentTask -> M AgentResult) tasks results :
  (forall agent_task s, exists r s', execute agent_task s = (inr r, s')) ->
  Forall2 (fun agent_task r => exists si, fst (execute agent_task si) = r) tasks results ->
  raised results = [] /\ length (returned results) = length tasks.
Proof.
  intros Hret H. induction H as [|t r ts rs [si Hr] _ [IH1 IH2]]; [done|].
  destruct (Hret t si) as (a & s' & Ha). rewrite Ha in Hr. simpl in Hr. subst r.
  split.
  - change (raised (inr a :: rs)) with (raised rs). exact IH1.
  - change (returned (inr a :: rs)) with (a :: returned rs). simpl. by rewrite IH2.
Qed.

Lemma failure_records_none ids i results :
  raised results = [] -> failure_records ids i results = [].
Proof.
  intros H. pose proof (length_failure_records ids i results) as Hlen.
  rewrite H in Hlen. by destruct (failure_records ids i results).
Qed.

(** X4.  When every executor call returns, no worker is dropped: the outcome
    counts and lists every allocated agent. *)
Theorem all_workers_return (env : Env) (execute : AgentTask -> M AgentResult)
    (task : gmap string value) (s : Consciousness) (z : Z) :
  int_of_float (time_time env (clock_reads s)) = Some z ->
  forallb (decomposable (agents s))
    (_allocate_agents_for_task (agents s) (dict_get_default task "type" (VStr "general")))
  = true ->
  (forall agent_task si, exists r s', execute agent_task si = (inr r, s')) ->
  exists o s2,
    process_cognitive_task env execute task s = (inr o, s2)
    /\ agent_count o
       = length (_allocate_agents_for_task (agents s)
                   (dict_get_default task "type" (VStr "general")))
    /\ length (cognitive_synthesis o) = agent_count o
    /\ final_output o !! "agent_consensus" = Some (VInt (Z.of_nat (agent_count o))).
Proof.
  intros Hz Hdec Hret.
  destruct (process_cognitive_task_spec env execute task s z Hz Hdec)
    as (tasks & results & s1 & s2 & _ & Hids & Hg & Hres & Hrun & _).
  destruct (all_return_all_returned execute tasks results Hret
              (gather_pointwise execute _ _ _ _ Hg)) as [_ Hall].
  eexists _, s2. split; [exact Hrun|]. simpl.
  split; [rewrite Hall, <- Hids; by rewrite length_map|].
  split; [done|]. unfold _generate_final_output.
  rewrite lookup_insert_ne by done. by rewrite lookup_insert_eq.
Qed.

(** ** What dispatch leaves of the state *)

Lemma touched_refl p : touched p p.
Proof. split; [done|by left]. Qed.

Lemma mark_processing_twice stamp stamp' a :
  mark_processing stamp' (mark_processing stamp a) = mark_processing stamp' a.
Proof. reflexivity. Qed.

Lemma touched_trans p q r : touched p q -> touched q r -> touched p r.
Proof.
  intros [Hk1 H1] [Hk2 H2]. split; [congruence|].
  destruct H2 as [->|[stamp' ->]]; [exact H1|].
  right. exists stamp'. destruct H1 as [->|[stamp ->]]; reflexivity.
Qed.

Lemma Forall2_touched_refl ags : Forall2 touched ags ags.
Proof. induction ags; constructor; [apply touched_refl|done]. Qed.

Lemma Forall2_touched_trans ags1 ags2 ags3 :
  Forall2 touched ags1 ags2 -> Forall2 touched ags2 ags3 -> Forall2 touched ags1 ags3.
Proof.
  intros H. revert ags3. induction H as [|p q l1 l2 Hpq _ IH]; intros ags3 H23.
  - inversion H23. constructor.
  - inversion H23; subst. constructor; [by eapply touched_trans|by apply IH].
Qed.

Lemma alter_touched stamp ags k :
  Forall2 touched ags (OrderedDict.alter (mark_processing stamp) ags k).
Proof.
  induction ags as [|[k' a] ags IH]; simpl; [constructor|].
  destruct (String.eqb k' k).
  - constructor; [|apply Forall2_touched_refl]. split; [done|]. right. by exists stamp.
  - constructor; [apply touched_refl|exact IH].
Qed.

#[local] Instance steady_preorder : PreOrder steady.
Proof.
  split.
  - intros s. split; [apply Forall2_touched_refl|done].
  - intros s1 s2 s3 (H1 & K1 & E1) (H2 & K2 & E2).
    split; [by eapply Forall2_touched_trans|]. split; congruence.
Qed.

Section Preservation.
Context (R : Consciousness -> Consciousness -> Prop) `{!PreOrder R}.

Lemma preserves_ret {A} (a : A) : preserves R (ret a).
Proof. intros s. reflexivity. Qed.

Lemma preserves_raise {A} (e : exn) : preserves R (@raise A e).
Proof. intros s. reflexivity. Qed.

Lemma preserves_bind {A B} (m : M A) (k : A -> M B) :
  preserves R m -> (forall a, preserves R (k a)) -> preserves R (bind m k).
Proof.
  intros Hm Hk s. unfold bind. specialize (Hm s).
  destruct (m s) as [[e|a] s1]; [exact Hm|].
  simpl in Hm. etransitivity; [exact Hm|apply Hk].
Qed.

Lemma preserves_attempt {A} (m : M A) : preserves R m -> preserves R (attempt m).
Proof. intros Hm s. unfold attempt. specialize (Hm s). by destruct (m s). Qed.

Lemma preserves_gather {A} (tasks : list (M A)) :
  Forall (preserves R) tasks -> preserves R (gather tasks).
Proof.
  induction 1 as [|t rest Ht _ IH]; simpl; [apply preserves_ret|].
  apply preserves_bind; [by apply preserves_attempt|]. intros r.
  apply preserves_bind; [exact IH|]. intros rs. apply preserves_ret.
Qed.
End Preservation.

Lemma steady_of_same_pool s s' :
  agents s' = agents s -> api_key s' = api_key s -> api_endpoint s' = api_endpoint s ->
  steady s s'.
Proof.
  intros Ha Hk He. split; [|done]. rewrite Ha. apply Forall2_touched_refl.
Qed.

Section SteadyDispatch.
Variable env : Env.

Lemma steady_now : preserves steady (now env).
Proof. intros s. by apply steady_of_same_pool. Qed.

Lemma steady_logger r : preserves steady (logger r).
Proof. intros s. by apply steady_of_same_pool. Qed.

Lemma steady_get_self : preserves steady get_self.
Proof. intros s. reflexivity. Qed.

Lemma steady_now_int : preserves steady (now_int env).
Proof.
  unfold now_int. apply preserves_bind; [apply _|apply steady_now|].
  intros t. destruct (int_of_float t); [apply preserves_ret|apply preserves_raise]; apply _.
Qed.

Lemma steady_decompose task aid : preserves steady (_decompose_task_for_agent task aid).
Proof. intros s. rewrite decompose_state. reflexivity. Qed.

Lemma steady_build_agent_tasks ids task : preserves steady (build_agent_tasks ids task).
Proof. intros s. rewrite build_agent_tasks_state. reflexivity. Qed.

Lemma steady_filter_valid ids i results : preserves steady (filter_valid ids i results).
Proof. intros s. rewrite filter_valid_spec. by apply steady_of_same_pool. Qed.

Lemma steady_consolidate results tid : preserves steady (_consolidate_results env results tid).
Proof. intros s. rewrite consolidate_spec. by apply steady_of_same_pool. Qed.

Lemma steady_store tid o : preserves steady (_store_in_memory env tid o).
Proof.
  intros s. unfold _store_in_memory, bind, get_self, now, logger, modify.
  repeat (case_match; try by apply steady_of_same_pool).
Qed.

(** The built-in executor touches the entry of its agent and nothing else. *)
Lemma steady_execute agent_task : preserves steady (_execute_agent_task env agent_task).
Proof.
  unfold _execute_agent_task.
  apply preserves_bind; [apply _|apply steady_get_self|]. intros self.
  apply preserves_bind; [apply _| |].
  - destruct (OrderedDict.mem (agents self) (at_agent_id agent_task));
      [|apply preserves_ret; apply _].
    apply preserves_bind; [apply _|apply steady_now_int|]. intros z s.
    split; [apply alter_touched|done].
  - intros _. apply preserves_bind; [apply _|apply steady_now|].
    intros t. apply preserves_ret; apply _.
Qed.

Variable execute : AgentTask -> M AgentResult.
Hypothesis steady_executor : forall agent_task, preserves steady (execute agent_task).

Lemma steady_coordinate ids task :
  preserves steady (_coordinate_agent_execution execute ids task).
Proof.
  unfold _coordinate_agent_execution.
  apply preserves_bind; [apply _|apply steady_build_agent_tasks|]. intros tasks.
  apply preserves_bind; [apply _| |intros results; apply steady_filter_valid].
  apply preserves_gather; [apply _|].
  apply Forall_forall. intros m Hm.
  apply list_elem_of_In, in_map_iff in Hm as (t & <- & _). apply steady_executor.
Qed.

Lemma steady_process task : preserves steady (process_cognitive_task env execute task).
Proof.
  unfold process_cognitive_task.
  apply preserves_bind; [apply _|apply steady_now_int|]. intros z.
  apply preserves_bind; [apply _|apply steady_logger|]. intros _.
  apply preserves_bind; [apply _|apply steady_get_self|]. intros self.
  apply preserves_bind; [apply _|apply steady_coordinate|]. intros results.
  apply preserves_bind; [apply _|apply steady_consolidate|]. intros final_result.
  apply preserves_bind; [apply _|apply steady_store|]. intros _.
  apply preserves_ret; apply _.
Qed.
End SteadyDispatch.

(** ** The built-in executor *)

Section BuiltinExecutor.
Variable env : Env.
Hypothesis finite : clock_finite env.

(** What one call of the built-in executor returns and leaves. *)
Lemma builtin_returns agent_task s :
  exists r s',
    _execute_agent_task env agent_task s = (inr r, s')
    /\ r_agent_id r = at_agent_id agent_task
    /\ r_status r = "completed"
    /\ r_cognitive_load r = Some 0.85%float
    /\ (OrderedDict.mem (agents s) (at_agent_id agent_task) = true ->
        exists stamp,
          agents s' = OrderedDict.alter (mark_processing stamp) (agents s)
                        (at_agent_id agent_task))
    /\ (OrderedDict.mem (agents s) (at_agent_id agent_task) = false -> agents s' = agents s).
Proof.
  unfold _execute_agent_task, bind, get_self.
  destruct (OrderedDict.mem (agents s) (at_agent_id agent_task)) eqn:Hmem.
  - destruct (finite (clock_reads s)) as [z Hz].
    rewrite (now_int_returns env s z Hz). unfold modify, now, ret. simpl.
    eexists _, _. split; [reflexivity|]. simpl. repeat split; [|done].
    intros _. by exists (pretty z).
  - unfold ret, now. simpl. eexists _, _. split; [reflexivity|]. simpl.
    repeat split; done.
Qed.

Lemma builtin_always_returns agent_task s :
  exists r s', _execute_agent_task env agent_task s = (inr r, s').
Proof. destruct (builtin_returns agent_task s) as (r & s' & H & _). eauto. Qed.

Lemma builtin_results tasks results :
  Forall2 (fun agent_task r =>
             exists si, fst (_execute_agent_task env agent_task si) = r) tasks results ->
  map r_agent_id (returned results) = map at_agent_id tasks
  /\ Forall (fun r => r_status r = "completed" /\ r_cognitive_load r = Some 0.85%float)
       (returned results).
Proof.
  induction 1 as [|t r ts rs [si Hr] _ [IH1 IH2]]; [by split|].
  destruct (builtin_returns t si) as (a & s' & Ha & Hid & Hst & Hload & _).
  rewrite Ha in Hr. simpl in Hr. subst r.
  change (returned (inr a :: rs)) with (a :: returned rs). simpl.
  split; [by rewrite Hid, IH1|]. by constructor.
Qed.
End BuiltinExecutor.

(** ** The run of a dispatch, with the state it leaves *)

Lemma process_cognitive_task_steps (env : Env) (execute : AgentTask -> M AgentResult)
    (task : gmap string value) (s : Consciousness) (z : Z) tasks results s1 :
  int_of_float (time_time env (clock_reads s)) = Some z ->
  build_agent_tasks
    (_allocate_agents_for_task (agents s) (dict_get_default task "type" (VStr "general")))
    task (started task z s) = (inr tasks, started task z s) ->
  gather (map execute tasks) (started task z s) = (inr results, s1) ->
  exists o s2,
    process_cognitive_task env execute task s = (inr o, s2)
    /\ cognitive_synthesis o = returned results
    /\ agent_count o = length (returned results)
    /\ confidence_score o = arithmetic_mean (map quality_of (returned results))
    /\ final_output o = _generate_final_output (returned results)
    /\ agents s2 = agents s1
    /\ api_key s2 = api_key s1.
Proof.
  intros Hz Hb Hg.
  set (ids := _allocate_agents_for_task (agents s)
                (dict_get_default task "type" (VStr "general"))) in *.
  set (tid := dict_get_default task "id" (VStr ("task_" ++ pretty z))).
  set (s1' := set_log (log s1 ++ failure_records ids 0 results) s1).
  set (o := mkOutcome tid "completed" (length (returned results))
              (time_time env (clock_reads s1))
              (returned results) (_generate_final_output (returned results))
              (arithmetic_mean (map quality_of (returned results)))).
  pose proof (steady_store env tid o (set_clock_reads (S (clock_reads s1')) s1'))
    as (Hpool & Hkey & _).
  destruct (store_returns env tid o (set_clock_reads (S (clock_reads s1')) s1'))
    as (s2 & Hst & Hags & _).
  exists o, s2. rewrite Hst in Hkey. simpl in Hkey.
  split; [|by simpl].
  unfold process_cognitive_task.
  rewrite (bind_inr _ _ _ _ _ (now_int_returns env s z Hz)).
  unfold bind at 1, logger, modify.
  change (set_log _ (set_clock_reads (S (clock_reads s)) s)) with (started task z s).
  unfold bind at 1, get_self.
  change (agents (started task z s)) with (agents s). fold ids.
  rewrite (bind_inr _ _ _ _ _ (coordinate_spec execute ids task _ _ _ _ Hb Hg)).
  fold s1'. fold tid.
  rewrite (bind_inr _ _ _ _ _ (consolidate_spec env _ tid s1')). fold o.
  by rewrite (bind_inr _ _ _ _ _ Hst).
Qed.

(** ** The pool after a dispatch with the built-in executor *)

Lemma get_alter_ne {V} (f : V -> V) (d : list (string * V)) (k k' : string) :
  k <> k' -> OrderedDict.get (OrderedDict.alter f d k) k' = OrderedDict.get d k'.
Proof.
  intros Hne. induction d as [|[k0 v0] d IH]; simpl; [done|].
  destruct (String.eqb k0 k) eqn:E; simpl.
  - apply String.eqb_eq in E. subst k0.
    by destruct (String.eqb k k') eqn:E'; [apply String.eqb_eq in E'|].
  - by rewrite IH.
Qed.

Lemma get_alter_eq {V} (f : V -> V) (d : list (string * V)) (k : string) :
  OrderedDict.get (OrderedDict.alter f d k) k = f <$> OrderedDict.get d k.
Proof.
  induction d as [|[k0 v0] d IH]; simpl; [done|].
  destruct (String.eqb k0 k) eqn:E; simpl; rewrite E; [done|exact IH].
Qed.

Lemma touched_get ags ags' k a :
  Forall2 touched ags ags' ->
  OrderedDict.get ags k = Some a ->
  exists a', OrderedDict.get ags' k = Some a'
             /\ (a' = a \/ exists stamp, a' = mark_processing stamp a).
Proof.
  induction 1 as [|[k1 a1] [k2 a2] l1 l2 [Hk Ha] _ IH]; simpl; [done|].
  simpl in Hk, Ha. subst k2.
  destruct (String.eqb k1 k); [|exact IH].
  intros [= ->]. by exists a2.
Qed.

Lemma touched_get_none ags ags' k :
  Forall2 touched ags ags' ->
  OrderedDict.get ags k = None -> OrderedDict.get ags' k = None.
Proof.
  induction 1 as [|[k1 a1] [k2 a2] l1 l2 [Hk Ha] _ IH]; simpl; [done|].
  simpl in Hk. subst k2. by destruct (String.eqb k1 k).
Qed.

Lemma steady_keeps_processing s s' k a :
  steady s s' ->
  OrderedDict.get (agents s) k = Some a -> status a = "processing" ->
  exists a', OrderedDict.get (agents s') k = Some a' /\ status a' = "processing".
Proof.
  intros [H _] Hget Hst.
  destruct (touched_get _ _ _ _ H Hget) as (a' & Hget' & [->|[stamp ->]]); eauto.
Qed.

Lemma steady_gather_builtin env tasks :
  preserves steady (gather (map (_execute_agent_task env) tasks)).
Proof.
  apply preserves_gather; [apply _|]. apply Forall_forall. intros m Hm.
  apply list_elem_of_In, in_map_iff in Hm as (t & <- & _). apply steady_execute.
Qed.

Lemma gather_builtin_cons env t rest s results s1 :
  clock_finite env ->
  gather (map (_execute_agent_task env) (t :: rest)) s = (inr results, s1) ->
  exists r s' rs,
    _execute_agent_task env t s = (inr r, s')
    /\ gather (map (_execute_agent_task env) rest) s' = (inr rs, s1)
    /\ results = inr r :: rs.
Proof.
  intros Hfin Hg. simpl in Hg. unfold bind, attempt in Hg.
  destruct (builtin_returns env Hfin t s) as (r & s' & Hr & _). rewrite Hr in Hg.
  destruct (gather (map (_execute_agent_task env) rest) s') as [[e|rs] s''] eqn:E; [done|].
  unfold ret in Hg. inversion Hg; subst. by exists r, s', rs.
Qed.

(** Every agent a call was made for ends up marked as processing. *)
Lemma gather_builtin_marks env tasks s results s1 :
  clock_finite env ->
  gather (map (_execute_agent_task env) tasks) s = (inr results, s1) ->
  forall aid, aid ∈ map at_agent_id tasks ->
    is_Some (OrderedDict.get (agents s) aid) ->
    exists a, OrderedDict.get (agents s1) aid = Some a /\ status a = "processing".
Proof.
  intros Hfin. revert s results. induction tasks as [|t rest IH]; intros s results Hg aid Hin Hsome.
  - by apply elem_of_nil in Hin.
  - destruct (gather_builtin_cons env t rest s results s1 Hfin Hg)
      as (r & s' & rs & Hr & Hrest & _).
    pose proof (steady_execute env t s) as Hsteady. rewrite Hr in Hsteady. simpl in Hsteady.
    simpl in Hin. apply elem_of_cons in Hin as [->|Hin].
    + destruct Hsome as [a Ha].
      destruct (builtin_returns env Hfin t s) as (r0 & s0 & Hr0 & _ & _ & _ & Hmark & _).
      rewrite Hr in Hr0. inversion Hr0; subst r0 s0.
      destruct Hmark as [stamp Hmark]; [unfold OrderedDict.mem; by rewrite Ha|].
      pose proof (steady_gather_builtin env rest s') as Hrest_steady.
      rewrite Hrest in Hrest_steady. simpl in Hrest_steady.
      eapply (steady_keeps_processing s' s1 _ (mark_processing stamp a)); [done| |done].
      rewrite Hmark, get_alter_eq, Ha. reflexivity.
    + eapply IH; [exact Hrest|exact Hin|].
      destruct Hsome as [a Ha]. destruct Hsteady as [Ht _].
      destruct (touched_get _ _ _ _ Ht Ha) as (a' & Ha' & _). by exists a'.
Qed.

(** An agent no call was made for is left as it was. *)
Lemma gather_builtin_untouched env tasks s results s1 :
  clock_finite env ->
  gather (map (_execute_agent_task env) tasks) s = (inr results, s1) ->
  forall aid, aid ∉ map at_agent_id tasks ->
    OrderedDict.get (agents s1) aid = OrderedDict.get (agents s) aid.
Proof.
  intros Hfin. revert s results. induction tasks as [|t rest IH]; intros s results Hg aid Hnin.
  - simpl in Hg. unfold ret in Hg. by inversion Hg.
  - destruct (gather_builtin_cons env t rest s results s1 Hfin Hg)
      as (r & s' & rs & Hr & Hrest & _).
    simpl in Hnin. apply not_elem_of_cons in Hnin as [Hne Hnin].
    rewrite (IH _ _ Hrest aid Hnin).
    destruct (builtin_returns env Hfin t s) as (r0 & s0 & Hr0 & _ & _ & _ & Hmark & Hsame).
    rewrite Hr in Hr0. inversion Hr0; subst r0 s0.
    destruct (OrderedDict.mem (agents s) (at_agent_id t)) eqn:Hmem.
    + destruct (Hmark eq_refl) as [stamp ->]. by apply get_alter_ne.
    + by rewrite (Hsame eq_refl).
Qed.

(** X5.  With the built-in executor and a clock that reads finite times,
    dispatch returns whenever the allocated agents decompose; every allocated
    agent comes back with a result, in the order of allocation, each
    "completed" with a cognitive load of 0.85, so the confidence score is
    the mean of as many copies of 0.85; every allocated agent is left marked
    "processing", and every other agent of the pool is left as it was. *)
Theorem builtin_dispatch_completes (env : Env) (task : gmap string value)
    (s : Consciousness) :
  clock_finite env ->
  forallb (decomposable (agents s))
    (_allocate_agents_for_task (agents s) (dict_get_default task "type" (VStr "general")))
  = true ->
  exists o s2,
    builtin_process_cognitive_task env task s = (inr o, s2)
    /\ map r_agent_id (cognitive_synthesis o)
       = _allocate_agents_for_task (agents s) (dict_get_default task "type" (VStr "general"))
    /\ Forall (fun r => r_status r = "completed" /\ r_cognitive_load r = Some 0.85%float)
         (cognitive_synthesis o)
    /\ confidence_score o = arithmetic_mean (replicate (agent_count o) 0.85%float)
    /\ (forall aid,
          aid ∈ _allocate_agents_for_task (agents s)
                  (dict_get_default task "type" (VStr "general")) ->
          exists a, OrderedDict.get (agents s2) aid = Some a /\ status a = "processing")
    /\ (forall aid,
          aid ∉ _allocate_agents_for_task (agents s)
                  (dict_get_default task "type" (VStr "general")) ->
          OrderedDict.get (agents s2) aid = OrderedDict.get (agents s) aid).
Proof.
  intros Hfin Hdec. destruct (Hfin (clock_reads s)) as [z Hz].
  set (ids := _allocate_agents_for_task (agents s)
                (dict_get_default task "type" (VStr "general"))) in *.
  destruct (build_agent_tasks_returns task ids (started task z s) Hdec)
    as (tasks & Hb & Hids).
  destruct (gather_total (map (_execute_agent_task env) tasks) (started task z s))
    as (results & s1 & Hg & _).
  destruct (process_cognitive_task_steps env (_execute_agent_task env) task s z
              tasks results s1 Hz Hb Hg)
    as (o & s2 & Hrun & Hsyn & Hcount & Hconf & _ & Hags & _).
  destruct (builtin_results env Hfin tasks results (gather_pointwise _ _ _ _ _ Hg))
    as [Hrids Hall].
  exists o, s2. split; [exact Hrun|].
  rewrite Hsyn. split; [by rewrite Hrids|]. split; [exact Hall|].
  split.
  - rewrite Hconf, Hcount. f_equal. apply map_constant.
    eapply Forall_impl; [exact Hall|]. intros r [_ Hload]. unfold quality_of. by rewrite Hload.
  - rewrite Hags. split.
    + intros aid Hin.
      eapply (gather_builtin_marks env tasks _ _ _ Hfin Hg); [by rewrite Hids|].
      change (agents (started task z s)) with (agents s).
      apply list_elem_of_In in Hin.
      pose proof (proj1 (forallb_forall _ _) Hdec aid Hin) as Hd.
      unfold decomposable in Hd. by destruct (OrderedDict.get (agents s) aid).
    + intros aid Hnin.
      rewrite (gather_builtin_untouched env tasks _ _ _ Hfin Hg); [done|by rewrite Hids].
Qed.

Lemma touched_keys ags ags' :
  Forall2 touched ags ags' -> OrderedDict.keys ags' = OrderedDict.keys ags.
Proof.
  unfold OrderedDict.keys. induction 1 as [|p q l1 l2 [Hk _] _ IH]; simpl; [done|].
  by rewrite Hk, IH.
Qed.

Lemma touched_fields p q :
  touched p q ->
  agent_id (snd q) = agent_id (snd p)
  /\ agent_type (snd q) = agent_type (snd p)
  /\ capabilities (snd q) = capabilities (snd p)
  /\ processing_load (snd q) = processing_load (snd p)
  /\ mcp_connections (snd q) = mcp_connections (snd p)
  /\ (status (snd q) = status (snd p) \/ status (snd q) = "processing").
Proof.
  intros [_ [->|[stamp ->]]]; simpl; repeat split; auto.
Qed.

(** X6.  A dispatch with the built-in executor, whether it returns or
    raises, keeps the keys of the pool and their order, and every agent's id,
    type, capabilities, load and connections; the only change it makes to an
    agent is to set its status to "processing" (with the time of the call);
    the API key and the endpoint are kept. *)
Theorem dispatch_keeps_the_pool (env : Env) (task : gmap string value) (s : Consciousness) :
  OrderedDict.keys (agents (snd (builtin_process_cognitive_task env task s)))
  = OrderedDict.keys (agents s)
  /\ Forall2 (fun p q =>
                agent_id (snd q) = agent_id (snd p)
                /\ agent_type (snd q) = agent_type (snd p)
                /\ capabilities (snd q) = capabilities (snd p)
                /\ processing_load (snd q) = processing_load (snd p)
                /\ mcp_connections (snd q) = mcp_connections (snd p)
                /\ (status (snd q) = status (snd p) \/ status (snd q) = "processing"))
       (agents s) (agents (snd (builtin_process_cognitive_task env task s)))
  /\ api_key (snd (builtin_process_cognitive_task env task s)) = api_key s
  /\ api_endpoint (snd (builtin_process_cognitive_task env task s)) = api_endpoint s.
Proof.
  destruct (steady_process env (_execute_agent_task env) (steady_execute env) task s)
    as (Hpool & Hkey & Hend).
  split; [by apply touched_keys|]. split; [|by split].
  eapply Forall2_impl; [exact Hpool|]. apply touched_fields.
Qed.

(** ** The status report across dispatches *)

Lemma steady_dispatch_all env tasks s : steady s (dispatch_all env tasks s).
Proof.
  revert s. induction tasks as [|task rest IH]; intros s; simpl; [reflexivity|].
  etransitivity; [|apply IH].
  apply (steady_process env (_execute_agent_task env) (steady_execute env) task s).
Qed.

Lemma touched_active_count ags ags' :
  Forall2 touched ags ags' ->
  length (filter (fun p => String.eqb (status (snd p)) "active" = true) ags')
  <= length (filter (fun p => String.eqb (status (snd p)) "active" = true) ags).
Proof.
  induction 1 as [|p q l1 l2 Hpq _ IH]; [done|].
  rewrite !filter_cons.
  destruct (touched_fields p q Hpq) as (_ & _ & _ & _ & _ & Hst).
  repeat case_decide; simpl; try lia.
  destruct Hst as [Hst|Hst]; rewrite Hst in *; [done|discriminate].
Qed.

Lemma touched_trinity_count ags ags' :
  Forall2 touched ags ags' ->
  length (filter (fun p => is_trinity (snd p) = true) ags')
  = length (filter (fun p => is_trinity (snd p) = true) ags).
Proof.
  induction 1 as [|p q l1 l2 Hpq _ IH]; [done|].
  rewrite !filter_cons.
  destruct (touched_fields p q Hpq) as (_ & Hty & _).
  unfold is_trinity in *. rewrite Hty.
  repeat case_decide; simpl; congruence.
Qed.

(** X7.  The status report over any number of dispatches with the built-in
    executor: the number of agents and of trinity teams, the memory status
    and the endpoint never change, and the number of active agents never
    grows; from the initial state on, the report keeps showing 200 agents,
    10 trinity teams and no active agent. *)
Theorem status_across_dispatches (env : Env) (tasks : list (gmap string value))
    (consciousness_state : string) (level : CognitiveLevelEnum)
    (mcp_servers : list (string * MCPServer)) :
  (forall s : Consciousness,
      let before := get_system_status consciousness_state level mcp_servers s in
      let after := get_system_status consciousness_state level mcp_servers
                     (dispatch_all env tasks s) in
      st_agents_total after = st_agents_total before
      /\ st_trinity_teams after = st_trinity_teams before
      /\ st_agents_active after <= st_agents_active before
      /\ st_memory_status after = st_memory_status before
      /\ st_memory_endpoint after = st_memory_endpoint before)
  /\ (forall key : option string,
        let after := get_system_status consciousness_state level mcp_servers
                       (dispatch_all env tasks (initial_consciousness key)) in
        st_agents_total after = 200
        /\ st_trinity_teams after = 10
        /\ st_agents_active after = 0).
Proof.
  assert (Hgen : forall s : Consciousness,
    st_agents_total (get_system_status consciousness_state level mcp_servers
                       (dispatch_all env tasks s))
    = st_agents_total (get_system_status consciousness_state level mcp_servers s)
    /\ st_trinity_teams (get_system_status consciousness_state level mcp_servers
                           (dispatch_all env tasks s))
       = st_trinity_teams (get_system_status consciousness_state level mcp_servers s)
    /\ st_agents_active (get_system_status consciousness_state level mcp_servers
                           (dispatch_all env tasks s))
       <= st_agents_active (get_system_status consciousness_state level mcp_servers s)
    /\ st_memory_status (get_system_status consciousness_state level mcp_servers
                           (dispatch_all env tasks s))
       = st_memory_status (get_system_status consciousness_state level mcp_servers s)
    /\ st_memory_endpoint (get_system_status consciousness_state level mcp_servers
                             (dispatch_all env tasks s))
       = st_memory_endpoint (get_system_status consciousness_state level mcp_servers s)).
  { intros s. destruct (steady_dispatch_all env tasks s) as (Hpool & Hkey & Hend).
    unfold get_system_status. simpl.
    split; [symmetry; by eapply Forall2_length|].
    split; [by rewrite (touched_trinity_count _ _ Hpool)|].
    split; [by apply touched_active_count|].
    split; [unfold api_key_set; by rewrite Hkey|exact Hend]. }
  split; [exact Hgen|].
  intros key. cbv zeta.
  destruct (Hgen (initial_consciousness key)) as (Htot & Hteams & Hact & _).
  rewrite Htot, Hteams.
  split; [vm_compute; reflexivity|]. split; [vm_compute; reflexivity|].
  assert (Hzero : st_agents_active (get_system_status consciousness_state level mcp_servers
                                      (initial_consciousness key)) = 0)
    by (vm_compute; reflexivity).
  lia.
Qed.

(** ** Deployment of the swarm *)

Section OrderedDictFacts.
Context {V : Type}.
Implicit Types (d : list (string * V)) (k : string) (v : V).

Lemma get_set_eq d k v : OrderedDict.get (OrderedDict.set d k v) k = Some v.
Proof.
  induction d as [|[k0 v0] d IH]; simpl; [by rewrite String.eqb_refl|].
  destruct (String.eqb k0 k) eqn:E; simpl; [by rewrite String.eqb_refl|by rewrite E].
Qed.

Lemma get_set_ne d k k' v :
  k <> k' -> OrderedDict.get (OrderedDict.set d k v) k' = OrderedDict.get d k'.
Proof.
  intros Hne. induction d as [|[k0 v0] d IH]; simpl.
  - by destruct (String.eqb k k') eqn:E; [apply String.eqb_eq in E|].
  - destruct (String.eqb k0 k) eqn:E; simpl.
    + apply String.eqb_eq in E. subst k0.
      by destruct (String.eqb k k') eqn:E'; [apply String.eqb_eq in E'|].
    + by rewrite IH.
Qed.

Lemma set_same d k v : OrderedDict.get d k = Some v -> OrderedDict.set d k v = d.
Proof.
  induction d as [|[k0 v0] d IH]; simpl; [done|].
  destruct (String.eqb k0 k) eqn:E.
  - apply String.eqb_eq in E. by intros [= ->]; subst.
  - intros H. by rewrite IH.
Qed.

Lemma keys_set d k v :
  OrderedDict.keys (OrderedDict.set d k v)
  = if OrderedDict.mem d k then OrderedDict.keys d else (OrderedDict.keys d ++ [k])%list.
Proof.
  unfold OrderedDict.keys, OrderedDict.mem. induction d as [|[k0 v0] d IH]; simpl; [done|].
  destruct (String.eqb k0 k) eqn:E; simpl.
  - apply String.eqb_eq in E. by subst.
  - rewrite IH. by destruct (OrderedDict.get d k).
Qed.

Lemma mem_keys d k : OrderedDict.mem d k = false -> k ∉ OrderedDict.keys d.
Proof.
  unfold OrderedDict.mem. intros H Hin.
  destruct (get_of_key d k Hin) as [v Hv]. by rewrite Hv in H.
Qed.

Lemma unique_set d k v :
  NoDup (OrderedDict.keys d) -> NoDup (OrderedDict.keys (OrderedDict.set d k v)).
Proof.
  intros Hnd. rewrite keys_set. destruct (OrderedDict.mem d k) eqn:E; [done|].
  apply NoDup_app. split; [done|]. split; [|apply NoDup_singleton].
  intros x Hx Hx'. apply list_elem_of_singleton in Hx'. subst x.
  by apply (mem_keys d k).
Qed.
End OrderedDictFacts.

Section StoreAll.
(** Storing a list of agents under their ids, as the deployment loops do. *)
Let store (d : list (string * Agent)) (a : Agent) := OrderedDict.set d (agent_id a) a.

Lemma store_all_other new d k :
  k ∉ map agent_id new -> OrderedDict.get (fold_left store new d) k = OrderedDict.get d k.
Proof.
  revert d. induction new as [|a new IH]; intros d Hk; simpl; [done|].
  simpl in Hk. apply not_elem_of_cons in Hk as [Hne Hk].
  rewrite IH by done. unfold store. by apply get_set_ne.
Qed.

Lemma store_all_new new d a :
  NoDup (map agent_id new) -> a ∈ new ->
  OrderedDict.get (fold_left store new d) (agent_id a) = Some a.
Proof.
  revert d. induction new as [|b new IH]; intros d Hnd Hin; simpl.
  - by apply elem_of_nil in Hin.
  - simpl in Hnd. apply NoDup_cons in Hnd as [Hb Hnd].
    apply elem_of_cons in Hin as [->|Hin]; [|by apply IH].
    rewrite store_all_other by done. unfold store. apply get_set_eq.
Qed.

Lemma store_all_again new d :
  (forall a, a ∈ new -> OrderedDict.get d (agent_id a) = Some a) ->
  fold_left store new d = d.
Proof.
  induction new as [|a new IH]; intros H; simpl; [done|].
  unfold store at 2. rewrite set_same by (apply H; by left).
  apply IH. intros b Hb. apply H. by right.
Qed.

Lemma store_all_unique new d :
  NoDup (OrderedDict.keys d) -> NoDup (OrderedDict.keys (fold_left store new d)).
Proof.
  revert d. induction new as [|a new IH]; intros d Hnd; simpl; [done|].
  apply IH. by apply unique_set.
Qed.

Lemma store_all_head new p d :
  fst p ∉ map agent_id new ->
  fold_left store new (p :: d) = p :: fold_left store new d.
Proof.
  revert d. induction new as [|a new IH]; intros d Hp; simpl; [done|].
  simpl in Hp. apply not_elem_of_cons in Hp as [Hne Hp].
  unfold store at 2 4. destruct p as [k v]. simpl in *.
  destruct (String.eqb k (agent_id a)) eqn:E; [by apply String.eqb_eq in E|].
  by apply IH.
Qed.

Lemma store_all_over new d :
  NoDup (map agent_id new) ->
  OrderedDict.keys d = map agent_id new ->
  fold_left store new d = map (fun a => (agent_id a, a)) new.
Proof.
  revert d. induction new as [|a new IH]; intros d Hnd Hkeys.
  - by destruct d.
  - destruct d as [|[k v] d]; [done|]. simpl in Hkeys. injection Hkeys as -> Hkeys.
    simpl in Hnd. apply NoDup_cons in Hnd as [Ha Hnd].
    simpl. unfold store at 2. simpl. rewrite String.eqb_refl.
    rewrite store_all_head by done. f_equal. by apply IH.
Qed.
End StoreAll.

Lemma swarm_ids_unique : NoDup (map agent_id swarm_agents).
Proof. apply (bool_decide_unpack _). vm_compute. reflexivity. Qed.

Lemma deploy_unfold ags :
  _deploy_agent_swarm ags
  = fold_left (fun d a => OrderedDict.set d (agent_id a) a) swarm_agents ags.
Proof. reflexivity. Qed.

(** X8.  Deploying the swarm into any pool stores each of its 200 agents,
    fresh, under its id, keeps every other agent of the pool, keeps the keys
    unique, and is idempotent. *)
Theorem deployment_into_a_pool (ags : list (string * Agent)) :
  (forall k,
      OrderedDict.get (_deploy_agent_swarm ags) k
      = match OrderedDict.get (_deploy_agent_swarm []) k with
        | Some a => Some a
        | None => OrderedDict.get ags k
        end)
  /\ (forall k a,
        OrderedDict.get (_deploy_agent_swarm []) k = Some a ->
        agent_id a = k /\ status a = "inactive" /\ last_activity a = None)
  /\ length (_deploy_agent_swarm []) = 200
  /\ (unique_keys ags -> unique_keys (_deploy_agent_swarm ags))
  /\ _deploy_agent_swarm (_deploy_agent_swarm ags) = _deploy_agent_swarm ags.
Proof.
  assert (Hnew : forall d a, a ∈ swarm_agents ->
            OrderedDict.get (_deploy_agent_swarm d) (agent_id a) = Some a).
  { intros d a Ha. rewrite deploy_unfold. apply store_all_new; [apply swarm_ids_unique|done]. }
  assert (Hother : forall d k, k ∉ map agent_id swarm_agents ->
            OrderedDict.get (_deploy_agent_swarm d) k = OrderedDict.get d k).
  { intros d k Hk. rewrite deploy_unfold. by apply store_all_other. }
  split; [|split; [|split; [|split]]].
  - intros k. destruct (decide (k ∈ map agent_id swarm_agents)) as [Hin|Hnin].
    + apply list_elem_of_In, in_map_iff in Hin as (a & <- & Ha).
      apply list_elem_of_In in Ha. by rewrite !Hnew.
    + by rewrite !Hother.
  - intros k a Hget.
    destruct (decide (k ∈ map agent_id swarm_agents)) as [Hin|Hnin].
    + apply list_elem_of_In, in_map_iff in Hin as (b & <- & Hb).
      apply list_elem_of_In in Hb. rewrite Hnew in Hget by done. injection Hget as <-.
      split; [done|].
      assert (Hall : Forall (fun b => status b = "inactive" /\ last_activity b = None)
                       swarm_agents) by (repeat constructor).
      by apply (proj1 (Forall_forall _ _) Hall).
    + by rewrite Hother in Hget.
  - vm_compute. reflexivity.
  - intros Hnd. rewrite deploy_unfold. by apply store_all_unique.
  - rewrite (deploy_unfold (_deploy_agent_swarm ags)).
    apply store_all_again. intros a Ha. by apply Hnew.
Qed.

(** X9.  Deploying again into a pool that has the keys of the swarm, in
    their order, gives back the freshly deployed swarm; in particular it
    undoes what any number of dispatches did to the agents. *)
Theorem redeployment_resets_the_swarm :
  (forall ags : list (string * Agent),
      OrderedDict.keys ags = OrderedDict.keys (_deploy_agent_swarm []) ->
      _deploy_agent_swarm ags = _deploy_agent_swarm [])
  /\ (forall (env : Env) (tasks : list (gmap string value)) (key : option string),
        _deploy_agent_swarm (agents (dispatch_all env tasks (initial_consciousness key)))
        = agents (initial_consciousness key)).
Proof.
  assert (Hreset : forall ags : list (string * Agent),
            OrderedDict.keys ags = OrderedDict.keys (_deploy_agent_swarm []) ->
            _deploy_agent_swarm ags = _deploy_agent_swarm []).
  { intros ags Hkeys. rewrite (deploy_unfold ags).
    rewrite store_all_over; [vm_compute; reflexivity|apply swarm_ids_unique|].
    rewrite Hkeys. vm_compute. reflexivity. }
  split; [exact Hreset|].
  intros env tasks key. apply Hreset.
  destruct (steady_dispatch_all env tasks (initial_consciousness key)) as [Hpool _].
  by apply touched_keys.
Qed.

(** ** Environment of an MCP server *)

Lemma substring_0_whole (s : string) : String.substring 0 (String.length s) s = s.
Proof. induction s as [|c s IH]; simpl; [done|by rewrite IH]. Qed.

Lemma substring_0_prefix (a b : string) :
  String.substring 0 (String.length a) (a ++ b) = a.
Proof.
  induction a as [|c a IH]; simpl; [by destruct b|by rewrite IH].
Qed.

Lemma substring_suffix (a b : string) :
  String.substring (String.length a) (String.length b) (a ++ b) = b.
Proof.
  induction a as [|c a IH]; simpl; [apply substring_0_whole|exact IH].
Qed.

Lemma length_append (a b : string) :
  String.length (a ++ b) = String.length a + String.length b.
Proof. induction a as [|c a IH]; simpl; [done|by rewrite IH]. Qed.

Lemma endswith_brace (a : string) : str_endswith "}" (a ++ "}") = true.
Proof.
  unfold str_endswith. rewrite length_append. simpl String.length.
  assert (H : String.substring (String.length a + 1 - 1) 1 (a ++ "}") = "}").
  { replace (String.length a + 1 - 1) with (String.length a) by lia.
    exact (substring_suffix a "}"). }
  rewrite H. apply andb_true_iff. split; [apply Nat.leb_le; lia|reflexivity].
Qed.

(** X10.  In a server's environment a value of the form [${NAME}] stands
    for what the process environment holds under [NAME], or for the empty
    string when it holds nothing; a value that does not start with "${" or
    does not end with "}" is passed on unchanged. *)
Theorem env_references_resolve (environ : gmap string string) :
  (forall name : string,
      resolve_env_value environ ("${" ++ name ++ "}") = default "" (environ !! name))
  /\ (forall value : string,
        String.prefix "${" value = false -> resolve_env_value environ value = value)
  /\ (forall value : string,
        str_endswith "}" value = false -> resolve_env_value environ value = value).
Proof.
  split; [|split].
  - intros name. unfold resolve_env_value.
    replace (str_endswith "}" ("${" ++ name ++ "}")) with true
      by (symmetry; exact (endswith_brace ("${" ++ name))).
    replace (String.prefix "${" ("${" ++ name ++ "}")) with true
      by (simpl; by destruct (name ++ "}")).
    simpl andb. cbv iota.
    f_equal. f_equal. unfold slice_2_minus_1.
    rewrite !length_append. simpl String.length.
    replace (2 + (String.length name + 1) - 3) with (String.length name) by lia.
    change (String.substring 2 (String.length name) ("${" ++ name ++ "}"))
      with (String.substring 0 (String.length name) (name ++ "}")).
    apply substring_0_prefix.
  - intros value H. unfold resolve_env_value. by rewrite H.
  - intros value H. unfold resolve_env_value. rewrite H. by rewrite andb_false_r.
Qed.

Lemma server_environment_fold (vars : list (string * string))
    (environ env : gmap string string) (k : string) :
  k ∉ map fst vars ->
  fold_left (fun e kv => <[fst kv := resolve_env_value environ (snd kv)]> e) vars env !! k
  = env !! k.
Proof.
  revert env. induction vars as [|[k0 v0] vars IH]; intros env Hk; simpl; [done|].
  simpl in Hk. apply not_elem_of_cons in Hk as [Hne Hk].
  rewrite IH by done. by rewrite lookup_insert_ne.
Qed.

Lemma server_environment_assigned (vars : list (string * string))
    (environ env : gmap string string) (k v : string) :
  NoDup (map fst vars) -> (k, v) ∈ vars ->
  fold_left (fun e kv => <[fst kv := resolve_env_value environ (snd kv)]> e) vars env !! k
  = Some (resolve_env_value environ v).
Proof.
  revert env. induction vars as [|[k0 v0] vars IH]; intros env Hnd Hin;
    [by apply elem_of_nil in Hin|].
  simpl in Hnd. apply NoDup_cons in Hnd as [Hk0 Hnd].
  apply elem_of_cons in Hin as [[= -> ->]|Hin]; simpl.
  - rewrite server_environment_fold by done. apply lookup_insert_eq.
  - by apply IH.
Qed.

(** X11.  The environment handed to a server whose variables have distinct
    names: each variable holds its value resolved against the process
    environment (never against the variables assigned before it), and every
    other name holds what the process environment holds. *)
Theorem server_environment_lookup (environ : gmap string string) (server : MCPServer) :
  NoDup (map fst (mcp_env_vars server)) ->
  (forall k v, (k, v) ∈ mcp_env_vars server ->
               server_environment environ server !! k
               = Some (resolve_env_value environ v))
  /\ (forall k, k ∉ map fst (mcp_env_vars server) ->
                server_environment environ server !! k = environ !! k).
Proof.
  intros Hnd. unfold server_environment. split.
  - intros k v Hin. by apply server_environment_assigned.
  - intros k Hk. by apply server_environment_fold.
Qed.

(** ** Start-up of the MCP servers *)

Lemma initialize_each_spec environ popen servers :
  Forall2 (fun p q =>
             fst q = fst p
             /\ snd q = if launches environ popen (snd p)
                        then set_mcp_status "active" (snd p) else snd p)
    servers (fst (initialize_each environ popen servers)).
Proof.
  induction servers as [|[name server] rest IH]; simpl; [constructor|].
  unfold _start_mcp_server.
  destruct (initialize_each environ popen rest) as [rest' records']. simpl in IH.
  destruct (popen (mcp_command server :: mcp_args server)
              (server_environment environ server)) eqn:E; simpl;
    (constructor; [split; [done|]; simpl; unfold launches; by rewrite E|exact IH]).
Qed.

Lemma initialize_each_active environ popen servers :
  Forall (fun p => mcp_status (snd p) <> "active") servers ->
  length (filter (fun p => String.eqb (mcp_status (snd p)) "active" = true)
            (fst (initialize_each environ popen servers)))
  = length (filter (fun p => launches environ popen (snd p) = true) servers).
Proof.
  induction 1 as [|[name server] rest Hs _ IH]; [done|].
  simpl. unfold _start_mcp_server.
  destruct (initialize_each environ popen rest) as [rest' records'].
  simpl in *. rewrite (filter_cons _ (name, server)).
  assert (Hl : launches environ popen server
               = match popen (mcp_command server :: mcp_args server)
                         (server_environment environ server) with
                 | None => true | Some _ => false end) by reflexivity.
  destruct (popen (mcp_command server :: mcp_args server)
              (server_environment environ server)) eqn:E; simpl.
  - rewrite filter_cons. simpl.
    rewrite decide_False by (intros H; apply Hs; by apply String.eqb_eq).
    rewrite decide_False by (rewrite Hl; done). exact IH.
  - rewrite decide_True by done. simpl. by rewrite IH.
Qed.

(** X12.  The start-up of the MCP servers never fails as a whole: it keeps
    the servers and their order, makes a server "active" exactly when its
    process starts, and leaves a server whose start raises as it was, without
    stopping the servers after it.  If no server was active before, the
    status report then counts as active the servers whose process
    started. *)
Theorem mcp_servers_start_independently (environ : gmap string string) (popen : Popen)
    (servers : list (string * MCPServer)) :
  Forall2 (fun p q =>
             fst q = fst p
             /\ snd q = if launches environ popen (snd p)
                        then set_mcp_status "active" (snd p) else snd p)
    servers (fst (_initialize_mcp_servers environ popen servers))
  /\ (forall (consciousness_state : string) (level : CognitiveLevelEnum) (s : Consciousness),
        Forall (fun p => mcp_status (snd p) <> "active") servers ->
        st_mcp_total (get_system_status consciousness_state level
                        (fst (_initialize_mcp_servers environ popen servers)) s)
        = length servers
        /\ st_mcp_active (get_system_status consciousness_state level
                            (fst (_initialize_mcp_servers environ popen servers)) s)
           = length (filter (fun p => launches environ popen (snd p) = true) servers)).
Proof.
  assert (Hfst : fst (_initialize_mcp_servers environ popen servers)
                 = fst (initialize_each environ popen servers)).
  { unfold _initialize_mcp_servers. by destruct (initialize_each environ popen servers). }
  rewrite Hfst. split; [apply initialize_each_spec|].
  intros cs level s Hinactive. unfold get_system_status. simpl.
  split; [symmetry; eapply Forall2_length, initialize_each_spec|].
  by apply initialize_each_active.
Qed.

(** ** Memory status and storage *)

(** X13.  The status report and the storage step agree on the API key:
    when the report says the memory constellation is inactive, storing an
    outcome only logs a warning, without reading the clock; when it says
    active, storing reads the clock once and logs how the upload went. *)
Theorem memory_status_matches_storage (consciousness_state : string)
    (level : CognitiveLevelEnum) (mcp_servers : list (string * MCPServer))
    (env : Env) (tid : value) (o : Outcome) (s : Consciousness) :
  (st_memory_status (get_system_status consciousness_state level mcp_servers s) = "inactive"
   -> _store_in_memory env tid o s
      = (inr tt, set_log (log s ++ [WarningApiKeyMissing]) s))
  /\ (st_memory_status (get_system_status consciousness_state level mcp_servers s) = "active"
      -> exists r,
           _store_in_memory env tid o s
           = (inr tt, set_log (log s ++ [r]) (set_clock_reads (S (clock_reads s)) s))
           /\ r <> WarningApiKeyMissing).
Proof.
  unfold get_system_status, api_key_set, _store_in_memory, bind, get_self, now, logger, modify.
  simpl. destruct (api_key s) as [[|c key]|]; simpl; (split; [done|]); try done.
  intros _. destruct (post_document _ _ _ _) as [code|e]; [|by eexists].
  repeat (case_match; try by eexists).
Qed.

(** ** The agent chain *)

Section ChainFacts.
Import AgentChain.

Lemma run_chain_times_spec n chain context :
  memory (fst (run_chain_times n chain context)) = memory chain
  /\ routines (fst (run_chain_times n chain context))
     = (routines chain
        ++ concat (replicate n ["default_greet"; "context_refine"; "memory_sync";
                                "automation_invoke"]))%list
  /\ forall i out,
       snd (run_chain_times n chain context) !! i = Some out ->
       out = LoadedMemory (memory chain)
             :: map (fun r => Running r context)
                  (routines chain
                   ++ concat (replicate (S i) ["default_greet"; "context_refine";
                                               "memory_sync"; "automation_invoke"]))%list.
Proof.
  revert chain. induction n as [|n IH]; intros chain.
  - simpl. split; [done|]. split; [by rewrite (app_nil_r (routines chain))|].
    intros i out H. by rewrite lookup_nil in H.
  - specialize (IH (discover_routines chain)).
    simpl run_chain_times.
    destruct (run_chain_times n (discover_routines chain) context) as [chain' printed].
    simpl in IH |- *. destruct IH as (Hmem & Hrou & Hout).
    split; [exact Hmem|].
    split; [rewrite Hrou, <- app_assoc; reflexivity|].
    intros [|i] out H; simpl in H.
    + injection H as <-. reflexivity.
    + rewrite (Hout i out H). rewrite <- app_assoc. reflexivity.
Qed.

(** X14.  The chain loads the session memory once, when it is built, and
    prints that same memory at every run; every run discovers the four
    routines again and appends them, so the [i]-th run (counting from 1) of a
    new chain runs the four routines [i] times over. *)
Theorem chain_routines_accumulate (fs : AutoMemoryBank.FileSystem) (context : value)
    (n : nat) :
  memory (fst (run_chain_times n (init fs) context))
  = AutoMemoryBank.load_all_session_memory fs
  /\ routines (fst (run_chain_times n (init fs) context))
     = concat (replicate n ["default_greet"; "context_refine"; "memory_sync";
                            "automation_invoke"])
  /\ forall i out,
       snd (run_chain_times n (init fs) context) !! i = Some out ->
       out = LoadedMemory (AutoMemoryBank.load_all_session_memory fs)
             :: map (fun r => Running r context)
                  (concat (replicate (S i) ["default_greet"; "context_refine";
                                            "memory_sync"; "automation_invoke"])).
Proof.
  destruct (run_chain_times_spec n (init fs) context) as (Hmem & Hrou & Hout).
  split; [exact Hmem|]. split; [exact Hrou|]. exact Hout.
Qed.
End ChainFacts.

(** ** More on the session memory bank *)

Section MemoryBankMore.
Import AutoMemoryBank.
Variable encodable : value -> bool.

(** X15.  Saves that return can be reordered and overwrite one another:
    when the saves for two different sessions each return on a disk, they
    return in either order and leave the same store; when a save for a
    session returned, a later save for the same session does what it would
    have done without the earlier one.  A save that raised is not undone by
    a later one: every save after it raises as well, whatever its
    arguments, and before it writes anything. *)
Theorem saves_commute_and_overwrite (a b : string) (x y : value) (d : Disk) :
  (a <> b ->
   fst (save_chat_memory encodable a x d) = inr tt ->
   fst (save_chat_memory encodable b y d) = inr tt ->
   save_chat_memory encodable a x (snd (save_chat_memory encodable b y d))
   = save_chat_memory encodable b y (snd (save_chat_memory encodable a x d))
   /\ fst (save_chat_memory encodable a x (snd (save_chat_memory encodable b y d))) = inr tt)
  /\ (fst (save_chat_memory encodable a y d) = inr tt ->
      save_chat_memory encodable a x (snd (save_chat_memory encodable a y d))
      = save_chat_memory encodable a x d)
  /\ (fst (save_chat_memory encodable b y d) <> inr tt ->
      exists e,
        e <> EncoderError
        /\ save_chat_memory encodable a x (snd (save_chat_memory encodable b y d))
           = (inl e, snd (save_chat_memory encodable b y d))).
Proof.
  split; [|split].
  - intros Hne Ha Hb.
    destruct (save_chat_memory_cases encodable a x d)
      as [(m & Hm & Hxall & Hsa)|[(m & _ & _ & Hsa)|(e & _ & _ & Hsa)]];
      rewrite Hsa in Ha |- *; try done.
    destruct (save_chat_memory_cases encodable b y d)
      as [(m' & Hm' & Hyall & Hsb)|[(m' & _ & _ & Hsb)|(e & _ & _ & Hsb)]];
      rewrite Hsb in Hb |- *; try done.
    rewrite Hm in Hm'. injection Hm' as <-. cbn [snd].
    assert (Hboth : map_Forall (fun _ v => encodable v = true) (<[a := x]> (<[b := y]> m))).
    { intros k v. destruct (decide (k = a)) as [->|Hk].
      - rewrite lookup_insert_eq. intros [= <-]. apply (Hxall a). apply lookup_insert_eq.
      - rewrite lookup_insert_ne by done. apply Hyall. }
    destruct (save_chat_memory_cases encodable a x (Store (MemoryFile (<[b := y]> m))))
      as [(m1 & Hm1 & _ & Hs1)|[(m1 & Hm1 & Hno & _)|(e & Hm1 & _)]].
    2: { injection Hm1 as <-. done. }
    2: { by destruct (Hm1 (<[b := y]> m)). }
    injection Hm1 as <-. rewrite Hs1.
    destruct (save_chat_memory_cases encodable b y (Store (MemoryFile (<[a := x]> m))))
      as [(m2 & Hm2 & _ & Hs2)|[(m2 & Hm2 & Hno & _)|(e & Hm2 & _)]].
    2: { injection Hm2 as <-. by rewrite insert_insert_ne in Hno. }
    2: { by destruct (Hm2 (<[a := x]> m)). }
    injection Hm2 as <-. rewrite Hs2. by rewrite (insert_insert_ne m a b).
  - intros Hy.
    destruct (save_chat_memory_cases encodable a y d)
      as [(m & Hm & _ & Hsy)|[(m & _ & _ & Hsy)|(e & _ & _ & Hsy)]];
      rewrite Hsy in Hy |- *; try done.
    cbn [snd]. clear Hsy Hy.
    destruct (save_chat_memory_cases encodable a x d)
      as [(m' & Hm' & Hall & Hs)|[(m' & Hm' & Hno & Hs)|(e & Hm' & _)]].
    3: { by destruct (Hm' m). }
    + rewrite Hm in Hm'. injection Hm' as <-. rewrite Hs.
      destruct (save_chat_memory_cases encodable a x (Store (MemoryFile (<[a := y]> m))))
        as [(m1 & Hm1 & _ & Hs1)|[(m1 & Hm1 & Hno & _)|(e & Hm1 & _)]].
      * injection Hm1 as <-. by rewrite Hs1, insert_insert_eq.
      * injection Hm1 as <-. by rewrite insert_insert_eq in Hno.
      * by destruct (Hm1 (<[a := y]> m)).
    + rewrite Hm in Hm'. injection Hm' as <-. rewrite Hs.
      destruct (save_chat_memory_cases encodable a x (Store (MemoryFile (<[a := y]> m))))
        as [(m1 & Hm1 & Hall & _)|[(m1 & Hm1 & _ & Hs1)|(e & Hm1 & _)]].
      * injection Hm1 as <-. by rewrite insert_insert_eq in Hall.
      * done.
      * by destruct (Hm1 (<[a := y]> m)).
  - intros Hy.
    destruct (save_chat_memory_cases encodable b y d)
      as [(m & _ & _ & Hsy)|[(m & _ & _ & Hsy)|(e & Hl & He & Hsy)]];
      rewrite Hsy in Hy |- *; try done; cbn [snd].
    + by exists JSONDecodeError.
    + destruct (save_chat_memory_cases encodable a x d)
        as [(m' & Hm' & _)|[(m' & Hm' & _)|(e' & _ & He' & Hs)]].
      * by destruct (Hl m').
      * by destruct (Hl m').
      * by exists e'.
Qed.

End MemoryBankMore.

(** ** The entry points on the deployed swarm *)

Lemma touched_get_by_capability ags ags' capability :
  Forall2 touched ags ags' ->
  _get_agents_by_capability ags' capability = _get_agents_by_capability ags capability.
Proof.
  unfold _get_agents_by_capability.
  induction 1 as [|p q l1 l2 Hpq _ IH]; [done|].
  destruct (touched_fields p q Hpq) as (_ & _ & Hcaps & _). destruct Hpq as [Hk _].
  rewrite !filter_cons. rewrite Hcaps.
  case_decide; simpl; by rewrite ?Hk, IH.
Qed.

Lemma touched_allocate ags ags' task_type :
  Forall2 touched ags ags' ->
  _allocate_agents_for_task ags' task_type = _allocate_agents_for_task ags task_type.
Proof.
  intros H. unfold _allocate_agents_for_task.
  rewrite !(touched_get_by_capability _ _ _ H). by rewrite (touched_keys _ _ H).
Qed.

Lemma touched_is_specialist specialty ags ags' aid :
  Forall2 touched ags ags' ->
  is_specialist_of specialty ags aid = true -> is_specialist_of specialty ags' aid = true.
Proof.
  intros H. unfold is_specialist_of.
  destruct (OrderedDict.get ags aid) as [a|] eqn:Ha; [|done].
  destruct (touched_get _ _ _ _ H Ha) as (a' & -> & [->|[stamp ->]]); done.
Qed.

Lemma decompose_specialist specialty task aid s :
  is_specialist_of specialty (agents s) aid = true ->
  _decompose_task_for_agent task aid s = (inr (specialist_subtask specialty task), s).
Proof.
  unfold is_specialist_of, _decompose_task_for_agent, bind, get_self.
  destruct (OrderedDict.get (agents s) aid) as [a|]; [|done].
  destruct (agent_type a); try done. destruct (capabilities a) as [|c cs]; [done|].
  intros Hc. apply String.eqb_eq in Hc. by subst c.
Qed.

Lemma build_specialist_tasks specialty task ids s :
  forallb (is_specialist_of specialty (agents s)) ids = true ->
  build_agent_tasks ids task s
  = (inr (map (fun aid => mkAgentTask aid (specialist_subtask specialty task)
                            (dict_get_default task "context" (VDict ∅))) ids), s).
Proof.
  induction ids as [|aid rest IH]; simpl; intros H; [done|].
  apply andb_true_iff in H as [Ha Hr].
  rewrite (bind_inr _ _ _ _ _ (decompose_specialist specialty task aid s Ha)).
  by rewrite (bind_inr _ _ _ _ _ (IH Hr)).
Qed.

Lemma forallb_impl {A} (f g : A -> bool) (l : list A) :
  (forall x, f x = true -> g x = true) -> forallb f l = true -> forallb g l = true.
Proof.
  intros Hfg H. apply forallb_forall. intros x Hx.
  apply Hfg. by apply (proj1 (forallb_forall _ _) H).
Qed.

Lemma specialist_is_decomposable specialty ags aid :
  is_specialist_of specialty ags aid = true -> decomposable ags aid = true.
Proof.
  unfold is_specialist_of, decomposable.
  destruct (OrderedDict.get ags aid) as [a|]; [|done].
  by destruct (agent_type a), (capabilities a).
Qed.

(** A task that is allocated by the capability [specialty], on the deployed
    swarm: the agent tasks handed to the executor and the outcome. *)
Lemma specialist_dispatch (env : Env) (execute : AgentTask -> M AgentResult)
    (task : gmap string value) (s : Consciousness) (z : Z) (specialty : string) :
  int_of_float (time_time env (clock_reads s)) = Some z ->
  Forall2 touched (_deploy_agent_swarm []) (agents s) ->
  _allocate_agents_for_task (_deploy_agent_swarm [])
    (dict_get_default task "type" (VStr "general"))
  = _get_agents_by_capability (_deploy_agent_swarm []) specialty ->
  forallb (is_specialist_of specialty (_deploy_agent_swarm []))
    (_get_agents_by_capability (_deploy_agent_swarm []) specialty) = true ->
  exists results s1 o s2,
    gather (map execute
              (map (fun aid => mkAgentTask aid (specialist_subtask specialty task)
                                 (dict_get_default task "context" (VDict ∅)))
                 (_get_agents_by_capability (_deploy_agent_swarm []) specialty)))
      (started task z s) = (inr results, s1)
    /\ process_cognitive_task env execute task s = (inr o, s2)
    /\ task_id o = dict_get_default task "id" (VStr ("task_" ++ pretty z))
    /\ cognitive_synthesis o = returned results
    /\ agent_count o = length (returned results).
Proof.
  intros Hz Hpool Halloc Hspec.
  assert (Hids : _allocate_agents_for_task (agents s)
                   (dict_get_default task "type" (VStr "general"))
                 = _get_agents_by_capability (_deploy_agent_swarm []) specialty)
    by (by rewrite (touched_allocate _ _ _ Hpool)).
  assert (Hspec' : forallb (is_specialist_of specialty (agents s))
                     (_get_agents_by_capability (_deploy_agent_swarm []) specialty) = true)
    by (eapply forallb_impl; [|exact Hspec]; intros aid; by apply touched_is_specialist).
  destruct (process_cognitive_task_spec env execute task s z Hz)
    as (tasks & results & s1 & s2 & Hb & _ & Hg & _ & Hrun & _).
  { rewrite Hids. eapply forallb_impl; [|exact Hspec'].
    intros aid. apply specialist_is_decomposable. }
  rewrite Hids in Hb.
  rewrite (build_specialist_tasks specialty task _ (started task z s) Hspec') in Hb.
  injection Hb as <-.
  eexists results, s1, _, s2. split; [exact Hg|]. split; [exact Hrun|]. by simpl.
Qed.

Lemma now_int_keeps_agents env s r s' :
  now_int env s = (r, s') -> agents s' = agents s.
Proof.
  unfold now_int, bind, now.
  destruct (int_of_float (time_time env (clock_reads s))); intros [= _ <-]; reflexivity.
Qed.

(** A dispatch that is allocated by the capability [specialty] on the
    deployed swarm reads four entries of the task and no other: "id",
    "type", "data" and "context". *)
Lemma specialist_dispatch_reads (env : Env) (execute : AgentTask -> M AgentResult)
    (task task' : gmap string value) (s : Consciousness) (specialty : string) :
  task !! "id" = task' !! "id" ->
  task !! "type" = task' !! "type" ->
  task !! "data" = task' !! "data" ->
  task !! "context" = task' !! "context" ->
  Forall2 touched (_deploy_agent_swarm []) (agents s) ->
  _allocate_agents_for_task (_deploy_agent_swarm [])
    (dict_get_default task "type" (VStr "general"))
  = _get_agents_by_capability (_deploy_agent_swarm []) specialty ->
  forallb (is_specialist_of specialty (_deploy_agent_swarm []))
    (_get_agents_by_capability (_deploy_agent_swarm []) specialty) = true ->
  process_cognitive_task env execute task' s = process_cognitive_task env execute task s.
Proof.
  intros Hid Hty Hdata Hctx Hpool Halloc Hspec.
  unfold process_cognitive_task, dict_get_default. rewrite Hid, Hty.
  unfold bind at 1 7.
  destruct (now_int env s) as [[e|z] s0] eqn:Hnow; [reflexivity|].
  apply now_int_keeps_agents in Hnow.
  unfold bind at 1 6. unfold logger at 1 2, modify.
  unfold bind at 1 5, get_self. cbn [agents set_log].
  assert (Hids : _allocate_agents_for_task (agents s0) (default (VStr "general") (task' !! "type"))
                 = _get_agents_by_capability (_deploy_agent_swarm []) specialty).
  { rewrite Hnow, (touched_allocate _ _ _ Hpool). rewrite <- Hty. exact Halloc. }
  rewrite Hids.
  set (s1 := set_log _ s0).
  assert (Hspec' : forallb (is_specialist_of specialty (agents s1))
                     (_get_agents_by_capability (_deploy_agent_swarm []) specialty) = true).
  { eapply forallb_impl; [|exact Hspec]. intros aid.
    apply touched_is_specialist. subst s1. cbn [agents set_log]. by rewrite Hnow. }
  assert (Hco : _coordinate_agent_execution execute
                  (_get_agents_by_capability (_deploy_agent_swarm []) specialty) task' s1
                = _coordinate_agent_execution execute
                    (_get_agents_by_capability (_deploy_agent_swarm []) specialty) task s1).
  { unfold _coordinate_agent_execution. unfold bind at 1 3.
    rewrite !(build_specialist_tasks specialty _ _ s1 Hspec').
    unfold specialist_subtask, dict_get, dict_get_default. by rewrite Hdata, Hctx. }
  unfold bind at 1 4. rewrite Hco. reflexivity.
Qed.

Lemma file_organization_task_entries z level directory mode :
  dict_get_default (file_organization_task z level directory mode) "id"
    (VStr ("task_" ++ pretty z)) = VStr ("file_org_" ++ pretty z)
  /\ dict_get_default (file_organization_task z level directory mode) "type"
       (VStr "general") = VStr "file_organization"
  /\ dict_get (file_organization_task z level directory mode) "data" = VNone
  /\ dict_get (file_organization_task z level directory mode) "input" = VStr directory.
Proof.
  unfold file_organization_task, dict_get_default, dict_get.
  repeat split; by simplify_map_eq.
Qed.

Lemma document_task_entries z template data format :
  dict_get_default (document_task z template data format) "id"
    (VStr ("task_" ++ pretty z)) = VStr ("doc_gen_" ++ pretty z)
  /\ dict_get_default (document_task z template data format) "type"
       (VStr "general") = VStr "document_processing"
  /\ dict_get (document_task z template data format) "data" = VDict data.
Proof.
  unfold document_task, dict_get_default, dict_get.
  repeat split; by simplify_map_eq.
Qed.

(** X17.  [organize_files] on the deployed swarm (fresh, or as earlier
    dispatches left it) runs the executor on exactly fifteen agent tasks, one
    per file-categorization specialist: the agent's id, the subtask with
    [None] as its data, and the empty context, in a state that differs from
    the caller's by two clock reads and the log record of the task id.  The
    directory is in none of them: the task carries it under "input", which no
    specialist is handed.  So the call returns the same outcome and leaves
    the same state whatever the directory, the mode and the level. *)
Theorem organize_files_hands_no_directory_to_the_agents (env : Env)
    (execute : AgentTask -> M AgentResult) (level : CognitiveLevelEnum)
    (directory mode : string) (s : Consciousness) :
  clock_finite env ->
  Forall2 touched (_deploy_agent_swarm []) (agents s) ->
  exists z results s1 o s2,
    int_of_float (time_time env (clock_reads s)) = Some z
    /\ length (_get_agents_by_capability (_deploy_agent_swarm []) "file_categorization") = 15
    /\ gather
         (map execute
            (map (fun aid =>
                    mkAgentTask aid
                      {[ "action" := VStr "specialized_processing";
                         "specialty" := VStr "file_categorization";
                         "data" := VNone ]}
                      (VDict ∅))
               (_get_agents_by_capability (_deploy_agent_swarm []) "file_categorization")))
         (entered ("file_org_" ++ pretty z) s)
       = (inr results, s1)
    /\ organize_files env execute level directory mode s = (inr o, s2)
    /\ task_id o = VStr ("file_org_" ++ pretty z)
    /\ cognitive_synthesis o = returned results
    /\ forall (level' : CognitiveLevelEnum) (directory' mode' : string),
         organize_files env execute level' directory' mode' s = (inr o, s2).
Proof.
  intros Hfin Hpool.
  destruct (Hfin (clock_reads s)) as [z Hz].
  destruct (Hfin (S (clock_reads s))) as [z' Hz'].
  set (task := file_organization_task z level directory mode).
  destruct (file_organization_task_entries z level directory mode)
    as (Hid & Hty & Hdata & _). fold task in Hid, Hty, Hdata.
  assert (Hid' : dict_get_default task "id" (VStr ("task_" ++ pretty z'))
                 = VStr ("file_org_" ++ pretty z))
    by (unfold task, file_organization_task, dict_get_default; by simplify_map_eq).
  assert (Hctx : dict_get_default task "context" (VDict ∅) = VDict ∅)
    by (unfold task, file_organization_task, dict_get_default; by simplify_map_eq).
  assert (Halloc : forall t,
            dict_get_default t "type" (VStr "general") = VStr "file_organization" ->
            _allocate_agents_for_task (_deploy_agent_swarm [])
              (dict_get_default t "type" (VStr "general"))
            = _get_agents_by_capability (_deploy_agent_swarm []) "file_categorization").
  { intros t ->. unfold _allocate_agents_for_task. cbn [value_eq_str String.eqb].
    reflexivity. }
  assert (Hspec : forallb (is_specialist_of "file_categorization" (_deploy_agent_swarm []))
                    (_get_agents_by_capability (_deploy_agent_swarm []) "file_categorization")
                  = true) by (vm_compute; reflexivity).
  destruct (specialist_dispatch env execute task
              (set_clock_reads (S (clock_reads s)) s) z' "file_categorization")
    as (results & s1 & o & s2 & Hg & Hrun & Htid & Hsyn & _);
    [exact Hz'|exact Hpool|exact (Halloc task Hty)|exact Hspec|].
  assert (Hcall : organize_files env execute level directory mode s = (inr o, s2)).
  { unfold organize_files. by rewrite (bind_inr _ _ _ _ _ (now_int_returns env s z Hz)). }
  exists z, results, s1, o, s2.
  split; [exact Hz|].
  split; [vm_compute; reflexivity|].
  split.
  { unfold specialist_subtask in Hg. rewrite Hdata, Hctx in Hg.
    unfold started in Hg. rewrite Hid' in Hg. exact Hg. }
  split; [exact Hcall|].
  split; [by rewrite Htid, Hid'|].
  split; [exact Hsyn|].
  intros level' directory' mode'. rewrite <- Hcall.
  unfold organize_files.
  rewrite !(bind_inr _ _ _ _ _ (now_int_returns env s z Hz)).
  apply (specialist_dispatch_reads env execute task _ _ "file_categorization");
    [reflexivity|reflexivity|reflexivity|reflexivity|
     exact Hpool|exact (Halloc task Hty)|exact Hspec].
Qed.

(** X18.  [generate_document] on the deployed swarm runs the executor on
    exactly fifteen agent tasks, one per document-analysis specialist: the
    agent's id, the subtask with the data dictionary, and the empty context,
    in a state that differs from the caller's by two clock reads and the log
    record of the task id.  The template and the output format are in none
    of them, so the call returns the same outcome and leaves the same state
    whatever the template and the format. *)
Theorem generate_document_hands_the_data_to_the_agents (env : Env)
    (execute : AgentTask -> M AgentResult) (template : string)
    (data : gmap string value) (format : string) (s : Consciousness) :
  clock_finite env ->
  Forall2 touched (_deploy_agent_swarm []) (agents s) ->
  exists z results s1 o s2,
    int_of_float (time_time env (clock_reads s)) = Some z
    /\ length (_get_agents_by_capability (_deploy_agent_swarm []) "document_analysis") = 15
    /\ gather
         (map execute
            (map (fun aid =>
                    mkAgentTask aid
                      {[ "action" := VStr "specialized_processing";
                         "specialty" := VStr "document_analysis";
                         "data" := VDict data ]}
                      (VDict ∅))
               (_get_agents_by_capability (_deploy_agent_swarm []) "document_analysis")))
         (entered ("doc_gen_" ++ pretty z) s)
       = (inr results, s1)
    /\ generate_document env execute template data format s = (inr o, s2)
    /\ task_id o = VStr ("doc_gen_" ++ pretty z)
    /\ cognitive_synthesis o = returned results
    /\ forall template' format' : string,
         generate_document env execute template' data format' s = (inr o, s2).
Proof.
  intros Hfin Hpool.
  destruct (Hfin (clock_reads s)) as [z Hz].
  destruct (Hfin (S (clock_reads s))) as [z' Hz'].
  set (task := document_task z template data format).
  destruct (document_task_entries z template data format) as (Hid & Hty & Hdata).
  fold task in Hid, Hty, Hdata.
  assert (Hid' : dict_get_default task "id" (VStr ("task_" ++ pretty z'))
                 = VStr ("doc_gen_" ++ pretty z))
    by (unfold task, document_task, dict_get_default; by simplify_map_eq).
  assert (Hctx : dict_get_default task "context" (VDict ∅) = VDict ∅)
    by (unfold task, document_task, dict_get_default; by simplify_map_eq).
  assert (Halloc : forall t,
            dict_get_default t "type" (VStr "general") = VStr "document_processing" ->
            _allocate_agents_for_task (_deploy_agent_swarm [])
              (dict_get_default t "type" (VStr "general"))
            = _get_agents_by_capability (_deploy_agent_swarm []) "document_analysis").
  { intros t ->. unfold _allocate_agents_for_task. cbn [value_eq_str String.eqb].
    reflexivity. }
  assert (Hspec : forallb (is_specialist_of "document_analysis" (_deploy_agent_swarm []))
                    (_get_agents_by_capability (_deploy_agent_swarm []) "document_analysis")
                  = true) by (vm_compute; reflexivity).
  destruct (specialist_dispatch env execute task
              (set_clock_reads (S (clock_reads s)) s) z' "document_analysis")
    as (results & s1 & o & s2 & Hg & Hrun & Htid & Hsyn & _);
    [exact Hz'|exact Hpool|exact (Halloc task Hty)|exact Hspec|].
  assert (Hcall : generate_document env execute template data format s = (inr o, s2)).
  { unfold generate_document. by rewrite (bind_inr _ _ _ _ _ (now_int_returns env s z Hz)). }
  exists z, results, s1, o, s2.
  split; [exact Hz|].
  split; [vm_compute; reflexivity|].
  split.
  { unfold specialist_subtask in Hg. rewrite Hdata, Hctx in Hg.
    unfold started in Hg. rewrite Hid' in Hg. exact Hg. }
  split; [exact Hcall|].
  split; [by rewrite Htid, Hid'|].
  split; [exact Hsyn|].
  intros template' format'. rewrite <- Hcall.
  unfold generate_document.
  rewrite !(bind_inr _ _ _ _ _ (now_int_returns env s z Hz)).
  apply (specialist_dispatch_reads env execute task _ _ "document_analysis");
    [reflexivity|reflexivity|reflexivity|reflexivity|
     exact Hpool|exact (Halloc task Hty)|exact Hspec].
Qed.

(** ** Failures of the decomposition *)

Lemma build_agent_tasks_raises task ids1 aid ids2 s e :
  forallb (decomposable (agents s)) ids1 = true ->
  _decompose_task_for_agent task aid s = (inl e, s) ->
  build_agent_tasks (ids1 ++ aid :: ids2) task s = (inl e, s).
Proof.
  intros Hdec Hraise. induction ids1 as [|a rest IH]; simpl.
  - unfold bind. by rewrite Hraise.
  - simpl in Hdec. apply andb_true_iff in Hdec as [Ha Hrest].
    destruct (decompose_returns task a s Ha) as (sub & Hsub).
    rewrite (bind_inr _ _ _ _ _ Hsub). unfold bind at 1. by rewrite (IH Hrest).
Qed.

(** X19.  Unlike a failure of the executor, a failure of the decomposition
    is not isolated.  If one agent id of the list is not in the pool, or
    belongs to a specialist without capabilities, the fan-out raises
    [KeyError], respectively [IndexError], leaves the state as it was and
    calls the executor for no agent at all, not even for those listed before
    the failing one. *)
Theorem decomposition_failure_aborts_the_fan_out (execute : AgentTask -> M AgentResult)
    (task : gmap string value) (s : Consciousness) (ids1 ids2 : list string) (aid : string) :
  forallb (decomposable (agents s)) ids1 = true ->
  (OrderedDict.get (agents s) aid = None ->
   _coordinate_agent_execution execute (ids1 ++ aid :: ids2) task s
   = (inl (KeyError aid), s))
  /\ (forall agent,
        OrderedDict.get (agents s) aid = Some agent ->
        agent_type agent = SPECIALIST -> capabilities agent = [] ->
        _coordinate_agent_execution execute (ids1 ++ aid :: ids2) task s
        = (inl IndexError, s)).
Proof.
  intros Hdec. split.
  - intros Hnone. unfold _coordinate_agent_execution, bind.
    rewrite (build_agent_tasks_raises task ids1 aid ids2 s (KeyError aid) Hdec); [done|].
    unfold _decompose_task_for_agent, bind, get_self. by rewrite Hnone.
  - intros agent Hget Hty Hcaps. unfold _coordinate_agent_execution, bind.
    rewrite (build_agent_tasks_raises task ids1 aid ids2 s IndexError Hdec); [done|].
    unfold _decompose_task_for_agent, bind, get_self. by rewrite Hget, Hty, Hcaps.
Qed.

Lemma decomposition_failure_aborts_the_fan_out_witness :
  _coordinate_agent_execution Examples.always_succeeds
    (["trinity_00_ingest"] ++ "nobody" :: ["trinity_00_publish"]) Scenario.t1
    (initial_consciousness None)
  = (inl (KeyError "nobody"), initial_consciousness None).
Proof.
  destruct (decomposition_failure_aborts_the_fan_out Examples.always_succeeds Scenario.t1
              (initial_consciousness None) ["trinity_00_ingest"] ["trinity_00_publish"]
              "nobody") as [Hkey _].
  - vm_compute. reflexivity.
  - apply Hkey. vm_compute. reflexivity.
Defined.

(** ** The properties above at concrete inputs *)

Lemma stuck_clock_is_finite : clock_finite Scenario.env_stored.
Proof. intros n. exists 1730000000%Z. vm_compute. reflexivity. Defined.

Lemma deployed_swarm_unique_keys (key : option string) :
  unique_keys (agents (initial_consciousness key)).
Proof. apply (bool_decide_unpack _). vm_compute. reflexivity. Defined.

Lemma capability_tasks_always_dispatch_witness :
  exists o s2,
    process_cognitive_task Scenario.env_stored Scenario.always_times_out Examples.code_task
      (initial_consciousness None) = (inr o, s2).
Proof.
  apply (capability_tasks_always_dispatch Scenario.env_stored Scenario.always_times_out
           Examples.code_task (initial_consciousness None) 1730000000%Z).
  - apply deployed_swarm_unique_keys.
  - vm_compute. reflexivity.
  - vm_compute. reflexivity.
Defined.

Lemma general_tasks_reach_at_most_nine_agents_witness :
  exists o s2,
    process_cognitive_task Scenario.env_stored Examples.always_succeeds Scenario.t1
      (initial_consciousness None) = (inr o, s2)
    /\ agent_count o <= 9.
Proof.
  apply (general_tasks_reach_at_most_nine_agents Scenario.env_stored Examples.always_succeeds
           Scenario.t1 (initial_consciousness None) 1730000000%Z);
    vm_compute; reflexivity.
Defined.

Lemma all_workers_return_witness :
  exists o s2,
    process_cognitive_task Scenario.env_stored Examples.always_succeeds Scenario.t1
      (initial_consciousness None) = (inr o, s2)
    /\ agent_count o = 9.
Proof.
  destruct (all_workers_return Scenario.env_stored Examples.always_succeeds Scenario.t1
              (initial_consciousness None) 1730000000%Z)
    as (o & s2 & Hrun & Hcount & _).
  - vm_compute. reflexivity.
  - vm_compute. reflexivity.
  - intros agent_task si. eexists _, si. reflexivity.
  - exists o, s2. split; [exact Hrun|]. rewrite Hcount. vm_compute. reflexivity.
Defined.

Lemma builtin_dispatch_completes_witness :
  exists o s2,
    builtin_process_cognitive_task Scenario.env_stored Scenario.t1
      (initial_consciousness None) = (inr o, s2)
    /\ map r_agent_id (cognitive_synthesis o)
       = [ "trinity_00_ingest"; "trinity_00_analyze"; "trinity_00_publish";
           "trinity_01_ingest"; "trinity_01_analyze"; "trinity_01_publish";
           "trinity_02_ingest"; "trinity_02_analyze"; "trinity_02_publish" ].
Proof.
  destruct (builtin_dispatch_completes Scenario.env_stored Scenario.t1
              (initial_consciousness None))
    as (o & s2 & Hrun & Hids & _).
  - apply stuck_clock_is_finite.
  - vm_compute. reflexivity.
  - exists o, s2. split; [exact Hrun|]. rewrite Hids. vm_compute. reflexivity.
Defined.

Lemma server_environment_lookup_witness :
  server_environment Examples.environ Examples.github_server
    !! "GITHUB_PERSONAL_ACCESS_TOKEN" = Some "ghp_example".
Proof.
  destruct (server_environment_lookup Examples.environ Examples.github_server) as [Hset _].
  - apply (bool_decide_unpack _). vm_compute. reflexivity.
  - rewrite (Hset "GITHUB_PERSONAL_ACCESS_TOKEN" "${GITHUB_TOKEN}");
      [vm_compute; reflexivity|]. apply list_elem_of_In. left. reflexivity.
Defined.

(** Two saves for different sessions on an empty directory, in either
    order. *)
Lemma saves_commute_and_overwrite_witness :
  AutoMemoryBank.save_chat_memory AutoMemoryBank.within_int_max_str_digits "s1" (VStr "a")
    (snd (AutoMemoryBank.save_chat_memory AutoMemoryBank.within_int_max_str_digits
            "s2" (VInt 2) (AutoMemoryBank.Store AutoMemoryBank.EmptyDirectory)))
  = AutoMemoryBank.save_chat_memory AutoMemoryBank.within_int_max_str_digits "s2" (VInt 2)
      (snd (AutoMemoryBank.save_chat_memory AutoMemoryBank.within_int_max_str_digits
              "s1" (VStr "a") (AutoMemoryBank.Store AutoMemoryBank.EmptyDirectory)))
  /\ fst (AutoMemoryBank.save_chat_memory AutoMemoryBank.within_int_max_str_digits
            "s1" (VStr "a")
            (snd (AutoMemoryBank.save_chat_memory AutoMemoryBank.within_int_max_str_digits
                    "s2" (VInt 2) (AutoMemoryBank.Store AutoMemoryBank.EmptyDirectory))))
     = inr tt.
Proof.
  destruct (saves_commute_and_overwrite AutoMemoryBank.within_int_max_str_digits
              "s1" "s2" (VStr "a") (VInt 2)
              (AutoMemoryBank.Store AutoMemoryBank.EmptyDirectory)) as (Hcommute & _).
  apply Hcommute; [discriminate|vm_compute; reflexivity|vm_compute; reflexivity].
Defined.

Lemma organize_files_hands_no_directory_to_the_agents_witness :
  exists o s2,
    organize_files Scenario.env_stored Examples.always_succeeds APEX "./workspace" "quantum"
      (initial_consciousness None) = (inr o, s2)
    /\ organize_files Scenario.env_stored Examples.always_succeeds BASIC "/etc" "plain"
         (initial_consciousness None) = (inr o, s2)
    /\ task_id o = VStr "file_org_1730000000".
Proof.
  destruct (organize_files_hands_no_directory_to_the_agents Scenario.env_stored
              Examples.always_succeeds APEX "./workspace" "quantum"
              (initial_consciousness None))
    as (z & results & s1 & o & s2 & Hz & _ & _ & Hrun & Htid & _ & Hany).
  - apply stuck_clock_is_finite.
  - apply Forall2_touched_refl.
  - exists o, s2. split; [exact Hrun|]. split; [apply Hany|]. rewrite Htid.
    assert (Hzv : Some z = Some 1730000000%Z) by (rewrite <- Hz; vm_compute; reflexivity).
    injection Hzv as ->. vm_compute. reflexivity.
Defined.

Lemma generate_document_hands_the_data_to_the_agents_witness :
  exists o s2,
    generate_document Scenario.env_stored Examples.always_succeeds "report" ∅ "pdf"
      (initial_consciousness None) = (inr o, s2)
    /\ generate_document Scenario.env_stored Examples.always_succeeds "letter" ∅ "html"
         (initial_consciousness None) = (inr o, s2)
    /\ task_id o = VStr "doc_gen_1730000000".
Proof.
  destruct (generate_document_hands_the_data_to_the_agents Scenario.env_stored
              Examples.always_succeeds "report" ∅ "pdf" (initial_consciousness None))
    as (z & results & s1 & o & s2 & Hz & _ & _ & Hrun & Htid & _ & Hany).
  - apply stuck_clock_is_finite.
  - apply Forall2_touched_refl.
  - exists o, s2. split; [exact Hrun|]. split; [apply Hany|]. rewrite Htid.
    assert (Hzv : Some z = Some 1730000000%Z) by (rewrite <- Hz; vm_compute; reflexivity).
    injection Hzv as ->. vm_compute. reflexivity.
Defined.
